(** * notion_portfolio_updater.py: a shallow embedding and its properties

    The script pages through a Notion database, resolves a price for each
    holding through yfinance, recomputes the derived fields and writes them
    back.  Python values are embedded as a small universe of JSON-like
    values, Python floats as binary64 primitive floats, exceptions as an
    error result, and the three external collaborators (store read, store
    write, price provider) as oracles over an abstract world whose calls are
    recorded in a trace. *)

From Stdlib Require Import ZArith NArith Floats.
From stdpp Require Import gmap strings list fin_maps.

Set Warnings "-register-all".

(** ** The Python runtime fragment the script relies on *)

Module Py.

(** A Python [str] is a sequence of Unicode code points. *)
Definition str := list N.

(** A literal of the source text (all literals of the script that are
    inspected at run time are ASCII). *)
Definition lit (s : string) : str :=
  Ascii.N_of_ascii <$> String.list_ascii_of_string s.

(** The values [json.loads] can produce: [Dict[str, Any]] in the script. *)
Inductive value :=
| JNull
| JBool (b : bool)
| JInt (z : Z)
| JFloat (f : float)
| JStr (s : str)
| JList (l : list value)
| JDict (d : gmap str value).

(** Subclasses of [Exception] that the operations below can raise.
    [External] stands for whatever a client library raises (network
    error, unknown symbol, malformed response, rejected update). *)
Inductive exn :=
| KeyError
| TypeError
| AttributeError
| ValueError
| OverflowError
| External (what : string).

Inductive result (A : Type) :=
| Ok (a : A)
| Raise (e : exn).
Arguments Ok {A} a.
Arguments Raise {A} e.

Definition bind {A B} (r : result A) (k : A -> result B) : result B :=
  match r with
  | Ok a => k a
  | Raise e => Raise e
  end.

Definition raises {A} (r : result A) : bool :=
  match r with Ok _ => false | Raise _ => true end.

(** [bool(x)], as used by [if x] and [not x]. *)
Definition truthy (x : value) : bool :=
  match x with
  | JNull => false
  | JBool b => b
  | JInt z => negb (z =? 0)%Z
  | JFloat f => negb (PrimFloat.eqb f 0)
  | JStr s => negb (bool_decide (s = []))
  | JList l => negb (bool_decide (l = []))
  | JDict d => negb (bool_decide (d = ∅))
  end.

(** [x[k]] for a string key [k]. *)
Definition getitem (x : value) (k : str) : result value :=
  match x with
  | JDict d =>
      match d !! k with
      | Some v => Ok v
      | None => Raise KeyError
      end
  | _ => Raise TypeError
  end.

(** [x.get(k, default)]. *)
Definition get (x : value) (k : str) (dflt : value) : result value :=
  match x with
  | JDict d => Ok (default dflt (d !! k))
  | _ => Raise AttributeError
  end.

(** Iteration, as in [for t in x] and [list.extend(x)].  A [str] yields
    its characters and a [dict] its keys.  Python yields the keys in
    insertion order, which a finite map does not record: here they come in
    the order of the map.  The properties below iterate lists only. *)
Definition iter (x : value) : result (list value) :=
  match x with
  | JList l => Ok l
  | JStr s => Ok ((fun c => JStr [c]) <$> s)
  | JDict d => Ok (JStr <$> (map_to_list d).*1)
  | _ => Raise TypeError
  end.

Fixpoint traverse {A B} (f : A -> result B) (l : list A) : result (list B) :=
  match l with
  | [] => Ok []
  | a :: l' =>
      bind (f a) (fun b => bind (traverse f l') (fun bs => Ok (b :: bs)))
  end.

(** ["".join(xs)]: every item has to be a [str]. *)
Fixpoint join (xs : list value) : result str :=
  match xs with
  | [] => Ok []
  | JStr s :: xs' => bind (join xs') (fun t => Ok (s ++ t))
  | _ :: _ => Raise TypeError
  end.

(** [c.isspace()] for a single code point: CPython's
    [_PyUnicode_IsWhitespace]. *)
Definition isspace (c : N) : bool :=
  ((9 <=? c) && (c <=? 13) || (28 <=? c) && (c <=? 32)
   || (c =? 133) || (c =? 160) || (c =? 5760)
   || (8192 <=? c) && (c <=? 8202) || (c =? 8232) || (c =? 8233)
   || (c =? 8239) || (c =? 8287) || (c =? 12288))%N.

Fixpoint lstrip (s : str) : str :=
  match s with
  | c :: s' => if isspace c then lstrip s' else s
  | [] => []
  end.

Definition rstrip (s : str) : str := reverse (lstrip (reverse s)).

(** [s.strip()]. *)
Definition strip (s : str) : str := rstrip (lstrip s).

(** [float(z)] for an [int]: round to nearest even; a magnitude beyond the
    binary64 range raises [OverflowError]. *)
Definition float_of_int (z : Z) : result float :=
  let f := SF2Prim (binary_normalize prec emax z 0 false) in
  if PrimFloat.is_infinity f then Raise OverflowError else Ok f.

Section Float.
(** [float(s)] for a [str] is the interpreter's decimal parser, kept
    abstract: it returns a float or raises [ValueError]. *)
Variable float_of_str : str -> result float.

(** [float(x)]. *)
Definition to_float (x : value) : result float :=
  match x with
  | JBool b => Ok (if b then 1%float else 0%float)
  | JInt z => float_of_int z
  | JFloat f => Ok f
  | JStr s => float_of_str s
  | JNull | JList _ | JDict _ => Raise TypeError
  end.
End Float.

(** [isinstance(x, (int, float))]; [bool] is a subclass of [int]. *)
Definition is_int_or_float (x : value) : bool :=
  match x with
  | JBool _ | JInt _ | JFloat _ => true
  | _ => false
  end.

End Py.


Import Py.

Declare Scope res_scope.
Delimit Scope res_scope with res.
Notation "x <- m ;; k" := (Py.bind m (fun x => k))
  (at level 100, m at next level, right associativity) : res_scope.

(** ** Module-level settings and constants of the script *)

(** The five settings read from the environment when the module is loaded.
    [os.getenv] gives [None] for an unset variable. *)
Record config := {
  NOTION_TOKEN : option str;
  DATABASE_ID : option str;
  BASE_CURRENCY : str;
  FX_RATE : float;
  UPDATE_ONLY_MISSING : bool
}.

Definition PROP_TITLE : str := lit "Name".
Definition PROP_TICKER : str := lit "Ticker".
Definition PROP_SHARES : str := lit "Shares".
Definition PROP_AVG_COST : str := lit "Avg Cost".
Definition PROP_PRICE : str := lit "Price".
Definition PROP_VALUE : str := lit "Value".
Definition PROP_PL_PCT : str := lit "P/L %".
Definition PROP_LAST_UPDATED : str := lit "Last Updated".

(** ** Pure helpers *)

(** [compute_metrics(shares, avg_cost, price)].  The comparison
    [avg_cost != 0] is the IEEE one: it is false for both zeros and true
    for NaN. *)
Definition compute_metrics (shares avg_cost price : option float)
  : option float * option float :=
  match shares, price with
  | Some shares, Some price =>
      let value := (shares * price)%float in
      let pl_pct :=
        match avg_cost with
        | Some avg_cost =>
            if negb (PrimFloat.eqb avg_cost 0)
            then Some ((price / avg_cost - 1) * 100)%float
            else None
        | None => None
        end in
      (Some value, pl_pct)
  | _, _ => (None, None)
  end.

(** The value [(110 / 100 - 1) * 100] takes in binary64: five units in the
    last place above ten, printed by Python as [10.000000000000009]. *)
Definition pct_110_over_100 : float := 0x1.4000000000005p+3%float.

(** [notion_number(value)]. *)
Definition notion_number (v : option float) : value :=
  JDict {[ lit "number" := match v with Some f => JFloat f | None => JNull end ]}.

(** [notion_date(iso)]. *)
Definition notion_date (iso : str) : value :=
  JDict {[ lit "date" := JDict {[ lit "start" := JStr iso ]} ]}.

(** [x == s] / [x != s] against a [str]: only a [str] can be equal to one. *)
Definition eq_str (x : value) (s : str) : bool :=
  match x with
  | JStr s' => bool_decide (s' = s)
  | _ => false
  end.

(** The [props] dictionary [update_page] builds. *)
Definition output_properties (price value pl_pct : option float) (iso : str)
  : gmap str Py.value :=
  {[ PROP_PRICE := notion_number price;
     PROP_VALUE := notion_number value;
     PROP_PL_PCT := notion_number pl_pct;
     PROP_LAST_UPDATED := notion_date iso ]}.

Section Accessors.
Variable float_of_str : str -> result float.

(** [safe_num(x)]: the whole body sits in [try ... except Exception]. *)
Definition safe_num (x : value) : option float :=
  let body : result (option float) :=
    match x with
    | JNull => Ok None
    | _ =>
        if is_int_or_float x then
          (f <- to_float float_of_str x ;;
           if PrimFloat.is_nan f then Ok None
           else (g <- to_float float_of_str x ;; Ok (Some g)))%res
        else (g <- to_float float_of_str x ;; Ok (Some g))%res
    end in
  match body with
  | Ok r => r
  | Raise _ => None
  end.

(** [get_prop_number(page, prop)]. *)
Definition get_prop_number (page : value) (prop : str) : result (option float) :=
  (props <- getitem page (lit "properties") ;;
   p <- get props prop JNull ;;
   if negb (truthy p) then Ok None else
   ty <- getitem p (lit "type") ;;
   if negb (eq_str ty (lit "number")) then Ok None else
   n <- get p (lit "number") JNull ;;
   Ok (safe_num n))%res.

(** ["".join([t.get("plain_text", "") for t in rt]).strip()]. *)
Definition plain_text (rt : value) : result str :=
  (ts <- iter rt ;;
   parts <- traverse (fun t => get t (lit "plain_text") (JStr [])) ts ;;
   s <- join parts ;;
   Ok (strip s))%res.

(** [get_prop_rich_text(page, prop)]. *)
Definition get_prop_rich_text (page : value) (prop : str) : result str :=
  (props <- getitem page (lit "properties") ;;
   p <- get props prop JNull ;;
   if negb (truthy p) then Ok [] else
   ty <- getitem p (lit "type") ;;
   if eq_str ty (lit "rich_text") then
     rt <- get p (lit "rich_text") (JList []) ;; plain_text rt
   else
   ty' <- getitem p (lit "type") ;;
   if eq_str ty' (lit "title") then
     tt <- get p (lit "title") (JList []) ;; plain_text tt
   else Ok [])%res.
End Accessors.


(** ** The outside world: store, price provider, clock, console *)

(** The lines the script prints. *)
Inductive line :=
| InfoPages (n : nat)
| PriceError (ticker : str) (e : exn)
| Warn (ticker : str)
| OkLine (title ticker : str) (price : float) (value pl_pct : option float)
| NotionError (ticker : str) (e : exn)
| Done (updated skipped failed : nat) (currency : str) (fx : float).

(** Everything the script does that is visible from outside, in order. *)
Inductive event :=
| Query (database_id : str) (start_cursor : option value)
| FastInfo (t : str)
| History (t : str)
| Update (page_id : value) (properties : gmap str value)
| Print (l : line).

(** The collaborators.  Each call may change the world and may raise.
    - [databases_query db c] is [client.databases.query(database_id=db)],
      with [start_cursor=c] when [c] is given;
    - [fast_last_price t] is the outcome of probing
      [yf.Ticker(t).fast_info]: [None] when the attribute is missing, empty,
      has no ["last_price"] or holds [None] there, else that entry;
    - [history_last_close t] is the outcome of
      [tk.history(period="1d", interval="1m")]: [None] when the frame is
      [None] or empty, else [hist["Close"].iloc[-1]];
    - [pages_update id props] is [client.pages.update(page_id=id, properties=props)];
    - [utcnow_isoformat] is [datetime.now(timezone.utc).isoformat()]. *)
Record Env (W : Type) := {
  float_of_str : str -> result float;
  databases_query : str -> option value -> W -> result value * W;
  fast_last_price : str -> W -> result (option value) * W;
  history_last_close : str -> W -> result (option value) * W;
  pages_update : value -> gmap str value -> W -> result unit * W;
  utcnow_isoformat : W -> str * W
}.
Arguments float_of_str {W} _ _.
Arguments databases_query {W} _ _ _ _.
Arguments fast_last_price {W} _ _ _.
Arguments history_last_close {W} _ _ _.
Arguments pages_update {W} _ _ _ _.
Arguments utcnow_isoformat {W} _ _.

(** The three counters of [main]. *)
Record counters := { updated : nat; skipped : nat; failed : nat }.

(** The state a run threads: the world, what has been done to it so far,
    and the local counters of [main] (they are assigned inside a [try]
    block, so an assignment survives a later exception). *)
Record state (W : Type) := {
  world : W;
  trace : list event;
  tally : counters
}.
Arguments world {W} _.
Arguments trace {W} _.
Arguments tally {W} _.

(** [s] with further events, a new world and a new tally. *)
Definition after {W : Type} (s : state W) (w : W) (evs : list event)
    (f : counters -> counters) : state W :=
  {| world := w; trace := trace s ++ evs; tally := f (tally s) |}.

Definition io (W A : Type) : Type := state W -> result A * state W.

Declare Scope io_scope.
Delimit Scope io_scope with io.

Section Monad.
Context {W : Type}.

Definition ret {A} (a : A) : io W A := fun s => (Ok a, s).

Definition io_bind {A B} (m : io W A) (k : A -> io W B) : io W B :=
  fun s =>
    match m s with
    | (Ok a, s') => k a s'
    | (Raise e, s') => (Raise e, s')
    end.

(** A pure computation that may raise. *)
Definition lift {A} (r : result A) : io W A := fun s => (r, s).

(** [try: body except Exception as e: handler(e)]. *)
Definition try_except {A} (body : io W A) (handler : exn -> io W A) : io W A :=
  fun s =>
    match body s with
    | (Ok a, s') => (Ok a, s')
    | (Raise e, s') => handler e s'
    end.

Definition emit (e : event) : io W unit :=
  fun s => (Ok tt, {| world := world s; trace := trace s ++ [e]; tally := tally s |}).

(** Call a collaborator: record the call, then let the world answer. *)
Definition call {A} (e : event) (f : W -> result A * W) : io W A :=
  fun s =>
    let '(r, w) := f (world s) in
    (r, {| world := w; trace := trace s ++ [e]; tally := tally s |}).

Definition modify_tally (f : counters -> counters) : io W unit :=
  fun s => (Ok tt, {| world := world s; trace := trace s; tally := f (tally s) |}).

Definition get_tally : io W counters := fun s => (Ok (tally s), s).
End Monad.

Notation "x <- m ;; k" := (io_bind m (fun x => k))
  (at level 100, m at next level, right associativity) : io_scope.
Notation "m ;;; k" := (io_bind m (fun _ => k))
  (at level 100, right associativity) : io_scope.

(** [updated += 1], [skipped += 1], [failed += 1]. *)
Definition incr_updated (n : counters) : counters :=
  {| updated := S (updated n); skipped := skipped n; failed := failed n |}.
Definition incr_skipped (n : counters) : counters :=
  {| updated := updated n; skipped := S (skipped n); failed := failed n |}.
Definition incr_failed (n : counters) : counters :=
  {| updated := updated n; skipped := skipped n; failed := S (failed n) |}.

(** ** The script *)

(** [not v] for a setting read with [os.getenv]. *)
Definition unset (v : option str) : bool :=
  match v with
  | None => true
  | Some s => bool_decide (s = [])
  end.

(** [require_env()]: the names collected in [missing]; a non-empty list is
    what [SystemExit] is raised with. *)
Definition require_env (c : config) : list str :=
  let missing := [] in
  let missing :=
    if unset (NOTION_TOKEN c) then missing ++ [lit "NOTION_TOKEN"] else missing in
  let missing :=
    if unset (DATABASE_ID c) then missing ++ [lit "NOTION_DATABASE_ID"] else missing in
  missing.

(** How a run of [main] ends. *)
Inductive termination :=
| Returned
| SystemExit (missing : list str)
| Uncaught (e : exn).

(** The exit status of the process: [0] when [main] returns, [1] for
    [SystemExit] raised with a message and for an uncaught exception. *)
Definition exit_status (t : termination) : Z :=
  match t with
  | Returned => 0
  | SystemExit _ | Uncaught _ => 1
  end.

Section Script.
Context {W : Type} (E : Env W) (c : config).
Local Open Scope io_scope.

(** [now_iso()]. *)
Definition now_iso : io W str :=
  fun s =>
    let '(iso, w) := utcnow_isoformat E (world s) in
    (Ok iso, {| world := w; trace := trace s; tally := tally s |}).

(** [fetch_price(ticker)]. *)
Definition fetch_price (ticker : str) : io W (option float) :=
  let t := strip ticker in
  if bool_decide (t = []) then ret None else
  try_except
    (last <- call (FastInfo t) (fast_last_price E t) ;;
     match last with
     | Some v => f <- lift (to_float (float_of_str E) v) ;; ret (Some f)
     | None =>
         close <- call (History t) (history_last_close E t) ;;
         match close with
         | Some v => f <- lift (to_float (float_of_str E) v) ;; ret (Some f)
         | None => ret None
         end
     end)
    (fun e => emit (Print (PriceError ticker e)) ;;; ret None).

(** The [while True] loop of [query_all_pages], with the number of
    iterations bounded by [fuel]; [None] means the bound was reached. *)
Fixpoint query_loop (fuel : nat) (database_id : str)
    (pages : list value) (cursor : value) : io W (option (list value)) :=
  match fuel with
  | O => ret None
  | S fuel' =>
      resp <- (if truthy cursor
               then call (Query database_id (Some cursor))
                      (databases_query E database_id (Some cursor))
               else call (Query database_id None)
                      (databases_query E database_id None)) ;;
      results <- lift (get resp (lit "results") (JList [])) ;;
      items <- lift (iter results) ;;
      let pages := pages ++ items in
      has_more <- lift (get resp (lit "has_more") JNull) ;;
      if negb (truthy has_more) then ret (Some pages) else
      cursor' <- lift (get resp (lit "next_cursor") JNull) ;;
      query_loop fuel' database_id pages cursor'
  end.

(** [query_all_pages(client, database_id)]. *)
Definition query_all_pages (fuel : nat) (database_id : str)
  : io W (option (list value)) :=
  query_loop fuel database_id [] JNull.

(** [update_page(client, page_id, price, value, pl_pct)]. *)
Definition update_page (page_id : value) (price value pl_pct : option float)
  : io W unit :=
  iso <- now_iso ;;
  let props := output_properties price value pl_pct iso in
  call (Update page_id props) (pages_update E page_id props).

(** The tail of the loop body: compute the metrics of the resolved price,
    then the [try ... except Exception] block around the write. *)
Definition write_back (page page_id : value) (ticker : str)
    (shares avg_cost : option float) (price : float) : io W unit :=
  (* price_display = price * FX_RATE is commented out in the source *)
  let price_display := price in
  let '(value, pl_pct) := compute_metrics shares avg_cost (Some price_display) in
  try_except
    (update_page page_id (Some price_display) value pl_pct ;;;
     modify_tally incr_updated ;;;
     title <- lift (get_prop_rich_text page PROP_TITLE) ;;
     let title := if bool_decide (title = []) then ticker else title in
     emit (Print (OkLine title ticker price_display value pl_pct)))
    (fun e =>
       modify_tally incr_failed ;;;
       emit (Print (NotionError ticker e))).

(** The body of [for page in pages]. *)
Definition process_page (page : value) : io W unit :=
  page_id <- lift (getitem page (lit "id")) ;;
  ticker <- lift (get_prop_rich_text page PROP_TICKER) ;;
  if bool_decide (ticker = []) then modify_tally incr_skipped else
  shares <- lift (get_prop_number (float_of_str E) page PROP_SHARES) ;;
  avg_cost <- lift (get_prop_number (float_of_str E) page PROP_AVG_COST) ;;
  existing_price <- lift (get_prop_number (float_of_str E) page PROP_PRICE) ;;
  if UPDATE_ONLY_MISSING c && bool_decide (existing_price <> None)
  then modify_tally incr_skipped else
  price <- fetch_price ticker ;;
  match price with
  | None => modify_tally incr_failed ;;; emit (Print (Warn ticker))
  | Some price => write_back page page_id ticker shares avg_cost price
  end.

(** What the reads at the top of the loop body return on [page]: its id,
    its ticker, its shares, its average cost and its existing price. *)
Definition reads (page pid : value) (ticker : str)
    (shares avg_cost existing : option float) : Prop :=
  getitem page (lit "id") = Ok pid
  /\ get_prop_rich_text page PROP_TICKER = Ok ticker
  /\ get_prop_number (float_of_str E) page PROP_SHARES = Ok shares
  /\ get_prop_number (float_of_str E) page PROP_AVG_COST = Ok avg_cost
  /\ get_prop_number (float_of_str E) page PROP_PRICE = Ok existing.

(** [for page in pages: ...]. *)
Fixpoint for_pages (pages : list value) : io W unit :=
  match pages with
  | [] => ret tt
  | page :: pages' => process_page page ;;; for_pages pages'
  end.

(** The part of [main()] after the pages are collected: the page count
    line, the three counters, the loop, the summary line. *)
Definition reconcile (pages : list value) : io W unit :=
  emit (Print (InfoPages (length pages))) ;;;
  modify_tally (fun _ => {| updated := 0; skipped := 0; failed := 0 |}) ;;;
  for_pages pages ;;;
  n <- get_tally ;;
  emit (Print (Done (updated n) (skipped n) (failed n)
                 (BASE_CURRENCY c) (FX_RATE c))).

(** [main()] from [query_all_pages] on; [None] means the page collection
    did not finish within [fuel] iterations. *)
Definition run (fuel : nat) (database_id : str) : io W (option unit) :=
  collected <- query_all_pages fuel database_id ;;
  match collected with
  | None => ret None
  | Some pages => reconcile pages ;;; ret (Some tt)
  end.

(** [main()] as the process sees it: how it ends and in which state. *)
Definition main (fuel : nat) (s : state W) : option termination * state W :=
  let missing := require_env c in
  if negb (bool_decide (missing = [])) then (Some (SystemExit missing), s) else
  match run fuel (default [] (DATABASE_ID c)) s with
  | (Ok (Some tt), s') => (Some Returned, s')
  | (Ok None, s') => (None, s')
  | (Raise e, s') => (Some (Uncaught e), s')
  end.
End Script.

(** ** One run of the loop body after the other *)

Section Runs.
Context {W : Type} (E : Env W) (c : config).

End Runs.


(** ** Holding records as the store delivers them *)

(** A rich-text fragment: an object whose ["plain_text"], when there is
    one, is a string. *)
Definition is_fragment (t : value) : bool :=
  match t with
  | JDict d =>
      match d !! lit "plain_text" with
      | Some (JStr _) | None => true
      | Some _ => false
      end
  | _ => false
  end.

Definition is_fragments (v : option value) : bool :=
  match v with
  | None => true
  | Some (JList ts) => forallb is_fragment ts
  | Some _ => false
  end.

(** A property of a record: null, or an object with a ["type"]; a
    rich-text or title property carries a list of fragments under the key
    named by its type. *)
Definition is_property (p : value) : bool :=
  match p with
  | JNull => true
  | JDict d =>
      match d !! lit "type" with
      | Some ty =>
          (if eq_str ty (lit "rich_text") then is_fragments (d !! lit "rich_text") else true)
          && (if eq_str ty (lit "title") then is_fragments (d !! lit "title") else true)
      | None => false
      end
  | _ => false
  end.

(** A record: an object with an ["id"] and a property bag. *)
Definition is_record (page : value) : bool :=
  match page with
  | JDict d =>
      bool_decide (is_Some (d !! lit "id"))
      && match d !! lit "properties" with
         | Some (JDict props) =>
             bool_decide (map_Forall (fun _ p => is_property p = true) props)
         | _ => false
         end
  | _ => false
  end.

(** Modelled from the spec: the store's update-by-identifier, which is not
    part of the script.  It accepts a partial field map; fields it does not
    name are left unchanged. *)
Definition store_patch (properties old : gmap str value) : gmap str value :=
  properties ∪ old.

(** The writes among a sequence of events. *)
Definition updates (tr : list event) : list (value * gmap str value) :=
  omap (fun e => match e with Update id props => Some (id, props) | _ => None end) tr.

(** What the writes among a sequence of events carry for the field [k]. *)
Definition written_field (k : str) (tr : list event) : list (option value) :=
  (fun w => w.2 !! k) <$> updates tr.

(** The number of records counted so far. *)
Definition total (n : counters) : nat := updated n + skipped n + failed n.

(** The provider calls among a sequence of events. *)
Definition fetches (tr : list event) : list str :=
  omap (fun e => match e with FastInfo t | History t => Some t | _ => None end) tr.

(** The text a fragment contributes: its ["plain_text"], or the empty
    string when it has none. *)
Definition fragment_text (t : value) (s : str) : Prop :=
  exists d, t = JDict d /\ default (JStr []) (d !! lit "plain_text") = JStr s.

(** The queries among the events. *)
Definition is_query (e : event) : bool :=
  match e with Query _ _ => true | _ => false end.

(** The events the price resolver can cause: provider calls and lines. *)
Definition is_resolution (e : event) : bool :=
  match e with FastInfo _ | History _ | Print _ => true | _ => false end.

(** The confirmation lines and the failure lines among the events. *)
Definition is_ok_line (e : event) : bool :=
  match e with Print (OkLine _ _ _ _ _) => true | _ => false end.

Definition is_failure_line (e : event) : bool :=
  match e with Print (Warn _) | Print (NotionError _ _) => true | _ => false end.

(** How many events of a kind a sequence has. *)
Fixpoint count (f : event -> bool) (tr : list event) : nat :=
  match tr with
  | [] => 0
  | e :: tr' => (if f e then 1 else 0) + count f tr'
  end.

(** The ids of the records of a list; a record without one is left out. *)
Definition ids (pages : list value) : list value :=
  omap (fun page => match getitem page (lit "id") with
                    | Ok v => Some v
                    | Raise _ => None
                    end) pages.

(** ** A well-behaved paginated store *)

(** The cursor argument the loop passes for the value it holds in [cursor]. *)
Definition start_cursor (cursor : value) : option value :=
  if truthy cursor then Some cursor else None.

Section Paging.
Context {W : Type} (E : Env W) (database_id : str).

End Paging.

(** ** Sample data: a two-page store and a provider that knows one symbol *)

Module Demo.

Definition text (ty : string) (parts : list string) : value :=
  JDict {[ lit "type" := JStr (lit ty);
           lit ty := JList ((fun t => JDict {[ lit "plain_text" := JStr (lit t) ]}) <$> parts) ]}.

Definition number (v : value) : value :=
  JDict {[ lit "type" := JStr (lit "number"); lit "number" := v ]}.

Definition holding (id name ticker : string) (shares avg_cost price : value) : value :=
  JDict {[ lit "id" := JStr (lit id);
           lit "properties" :=
             JDict {[ PROP_TITLE := text "title" [name];
                      PROP_TICKER := text "rich_text" [ticker];
                      PROP_SHARES := number shares;
                      PROP_AVG_COST := number avg_cost;
                      PROP_PRICE := number price ]} ]}.

Definition apple : value := holding "p1" "Apple" "AAPL" (JInt 10) (JInt 100) (JFloat 105).
Definition blank : value := holding "p2" "Cash" "   " JNull JNull JNull.
Definition msft : value := holding "p3" "Microsoft" "MSFT" (JInt 3) (JFloat 250) JNull.
Definition unknown : value := holding "p4" "Unlisted" "ZZZZ" (JInt 1) (JInt 1) JNull.

Definition response (items : list value) (has_more next_cursor : value) : value :=
  JDict {[ lit "results" := JList items;
           lit "has_more" := has_more;
           lit "next_cursor" := next_cursor ]}.

Definition page1 : value := response [apple; blank] (JBool true) (JStr (lit "cursor-2")).
Definition page2 : value := response [msft; unknown] (JBool false) JNull.

(** The world is the number of calls answered so far. *)
Definition env : Env nat := {|
  float_of_str := fun _ => Raise ValueError;
  databases_query := fun _ c w =>
    (match c with
     | None => Ok page1
     | Some x => if eq_str x (lit "cursor-2") then Ok page2
                 else Raise (External "validation_error")
     end, S w);
  fast_last_price := fun t w =>
    (if bool_decide (t = lit "AAPL") then Ok (Some (JFloat 110))
     else if bool_decide (t = lit "MSFT") then Raise (External "timeout")
     else Ok None, S w);
  history_last_close := fun _ w => (Ok None, S w);
  pages_update := fun _ _ w => (Ok tt, S w);
  utcnow_isoformat := fun w => (lit "2024-01-01T00:00:00+00:00", w)
|}.

Definition settings (fx : float) (only_missing : bool) : config := {|
  NOTION_TOKEN := Some (lit "secret_x");
  DATABASE_ID := Some (lit "db");
  BASE_CURRENCY := lit "USD";
  FX_RATE := fx;
  UPDATE_ONLY_MISSING := only_missing
|}.

Definition start : state nat :=
  {| world := 0; trace := []; tally := {| updated := 0; skipped := 0; failed := 0 |} |}.

(** A record whose title property holds null where the fragments belong. *)
Definition odd_title : value :=
  JDict {[ lit "id" := JStr (lit "p5");
           lit "properties" :=
             JDict {[ PROP_TITLE := JDict {[ lit "type" := JStr (lit "title");
                                            lit "title" := JNull ]};
                      PROP_TICKER := text "rich_text" ["AAPL"];
                      PROP_SHARES := number (JInt 2) ]} ]}.

(** A record without an id. *)
Definition no_id : value :=
  JDict {[ lit "properties" := JDict {[ PROP_TICKER := text "rich_text" ["AAPL"] ]} ]}.

(** A store that answers every query with the same page and a true
    has-more flag, and rejects every update. *)
Definition stubborn : Env nat := {|
  float_of_str := fun _ => Raise ValueError;
  databases_query := fun _ _ w =>
    (Ok (response [apple] (JBool true) (JStr (lit "cursor-2"))), S w);
  fast_last_price := fast_last_price env;
  history_last_close := history_last_close env;
  pages_update := fun _ _ w => (Raise (External "conflict"), S w);
  utcnow_isoformat := utcnow_isoformat env
|}.

(** A store whose first query fails. *)
Definition offline : Env nat := {|
  float_of_str := fun _ => Raise ValueError;
  databases_query := fun _ _ w => (Raise (External "unreachable"), S w);
  fast_last_price := fast_last_price env;
  history_last_close := history_last_close env;
  pages_update := pages_update env;
  utcnow_isoformat := utcnow_isoformat env
|}.


End Demo.

(** ** Properties *)

(** *** Sanity checks of the runtime fragment *)

Example float_of_int_10 : Py.float_of_int 10 = Py.Ok 10%float.
Proof. reflexivity. Qed.

Example float_of_int_huge : Py.float_of_int (10 ^ 400) = Py.Raise Py.OverflowError.
Proof. vm_compute. reflexivity. Qed.

Example strip_spaces :
  Py.strip (Py.lit "  AAPL ") = Py.lit "AAPL" /\ Py.strip (Py.lit "   ") = [].
Proof. split; reflexivity. Qed.

Example compute_metrics_zero_cost :
  compute_metrics (Some 5%float) (Some 0%float) (Some 50%float)
  = (Some 250%float, None).
Proof. reflexivity. Qed.


(** *** The metric calculator *)

(** C1, as stated, at its own scenario: with shares 10, average cost 100
    and price 110 the percentage the code returns is not the float 10.0. *)
Lemma compute_metrics_scenario_not_10 :
  compute_metrics (Some 10%float) (Some 100%float) (Some 110%float)
  <> (Some 1100%float, Some 10%float).
Proof.
  intros H.
  apply (f_equal (fun r => match r.2 with
                           | Some f => PrimFloat.eqb f 10
                           | None => false
                           end)) in H.
  vm_compute in H. discriminate H.
Qed.

(** C1, amended: the result is (absent, absent) when shares or price is
    absent; otherwise value is the binary64 product of shares and price
    with no further rounding step, and pct is absent unless the average
    cost is present and compares unequal to zero, in which case it is
    [(price / avg_cost - 1) * 100] evaluated in binary64; for shares 10,
    average cost 100 and price 110 this gives value 1100 and pct
    10.000000000000009. *)
Theorem compute_metrics_spec :
  (forall avg_cost price, compute_metrics None avg_cost price = (None, None))
  /\ (forall shares avg_cost, compute_metrics shares avg_cost None = (None, None))
  /\ (forall s p, compute_metrics (Some s) None (Some p) = (Some (s * p)%float, None))
  /\ (forall s a p,
        compute_metrics (Some s) (Some a) (Some p)
        = (Some (s * p)%float,
           if PrimFloat.eqb a 0 then None else Some ((p / a - 1) * 100)%float))
  /\ compute_metrics (Some 10%float) (Some 100%float) (Some 110%float)
     = (Some 1100%float, Some pct_110_over_100).
Proof.
  split; [|split; [|split; [|split]]].
  - reflexivity.
  - intros [s|] a; reflexivity.
  - reflexivity.
  - intros s a p. unfold compute_metrics.
    destruct (PrimFloat.eqb a 0); reflexivity.
  - vm_compute. reflexivity.
Qed.

(** *** The record field accessor *)

Lemma is_record_inv (page : value) :
  is_record page = true ->
  exists d pid props,
    page = JDict d
    /\ d !! lit "id" = Some pid
    /\ d !! lit "properties" = Some (JDict props)
    /\ forall k p, props !! k = Some p -> is_property p = true.
Proof.
  destruct page as [| | | | | |d]; try discriminate. simpl.
  intros [Hid Hprops]%andb_prop.
  apply bool_decide_eq_true in Hid as [pid Hid].
  destruct (d !! lit "properties") as [[| | | | | |props]|] eqn:Hp; try discriminate.
  apply bool_decide_eq_true in Hprops.
  exists d, pid, props. do 3 (split; [done|]). exact Hprops.
Qed.

(** A property is falsy exactly when it is null. *)
Lemma is_property_truthy (p : value) :
  is_property p = true ->
  p = JNull \/ exists d ty, p = JDict d /\ d !! lit "type" = Some ty /\ truthy p = true.
Proof.
  destruct p as [| | | | | |d]; try discriminate; [by left|].
  simpl. destruct (d !! lit "type") as [ty|] eqn:Hty; [|discriminate].
  intros _. right. exists d, ty. repeat split; try done.
  apply negb_true_iff, bool_decide_eq_false. intros ->.
  by rewrite lookup_empty in Hty.
Qed.

Section AccessorFacts.
Variable float_of_str : str -> result float.

Lemma safe_num_null : safe_num float_of_str JNull = None.
Proof. reflexivity. Qed.

Lemma safe_num_float (f : float) :
  safe_num float_of_str (JFloat f) = if PrimFloat.is_nan f then None else Some f.
Proof. unfold safe_num. simpl. by destruct (PrimFloat.is_nan f). Qed.

Lemma safe_num_int (z : Z) :
  safe_num float_of_str (JInt z)
  = match float_of_int z with
    | Ok f => if PrimFloat.is_nan f then None else Some f
    | Raise _ => None
    end.
Proof.
  unfold safe_num. simpl. destruct (float_of_int z) as [f|e]; simpl; [|done].
  by destruct (PrimFloat.is_nan f).
Qed.

(** On a record, reading a number reduces to a lookup in the property bag. *)
Lemma get_prop_number_record (d props : gmap str value) (prop : str) :
  d !! lit "properties" = Some (JDict props) ->
  (forall k p, props !! k = Some p -> is_property p = true) ->
  get_prop_number float_of_str (JDict d) prop
  = match props !! prop with
    | Some (JDict f) =>
        if eq_str (default JNull (f !! lit "type")) (lit "number")
        then Ok (safe_num float_of_str (default JNull (f !! lit "number")))
        else Ok None
    | _ => Ok None
    end.
Proof.
  intros Hp Hall. unfold get_prop_number. simpl. rewrite Hp. simpl.
  destruct (props !! prop) as [p|] eqn:Hk; simpl; [|done].
  destruct (is_property_truthy p (Hall _ _ Hk)) as [->|(f & ty & -> & Hty & Ht)];
    [done|].
  rewrite Ht. simpl. rewrite Hty. simpl.
  by destruct (eq_str ty (lit "number")).
Qed.
(** On a record the numeric accessor raises nothing. *)
Lemma get_prop_number_returns (page : value) (prop : str) :
  is_record page = true ->
  exists r, get_prop_number float_of_str page prop = Ok r.
Proof.
  intros (d & pid & props & -> & Hid & Hp & Hall)%is_record_inv.
  rewrite (get_prop_number_record _ _ _ Hp Hall).
  destruct (props !! prop) as [[| | | | | |f]|]; eauto.
  destruct (eq_str _ _); eauto.
Qed.
End AccessorFacts.

(** C3, as stated, at a record whose stored number is an infinity: the
    value is not finite, yet the accessor does not return absent. *)
Lemma get_prop_number_keeps_infinity :
  is_record (Demo.holding "p9" "Odd" "ODD" (JFloat infinity) JNull JNull) = true
  /\ PrimFloat.is_finite infinity = false
  /\ get_prop_number (fun _ => Raise ValueError)
       (Demo.holding "p9" "Odd" "ODD" (JFloat infinity) JNull JNull) PROP_SHARES
     <> Ok None.
Proof.
  split; [by vm_compute|]. split; [by vm_compute|].
  intros H.
  apply (f_equal (fun r => match r with Ok None => true | _ => false end)) in H.
  vm_compute in H. discriminate H.
Qed.

(** C3, amended: on every record and for every field name the numeric
    accessor raises nothing; it returns absent when the field is missing
    or null, when its type is not "number", when the stored number is
    missing or null, and when the stored number is NaN; for any other
    stored float, the infinities included, it returns that float, and for a
    stored integer its conversion to a float (absent when the conversion
    overflows). *)
Theorem get_prop_number_spec (float_of_str : str -> result float)
    (page : value) (prop : str) :
  is_record page = true ->
  raises (get_prop_number float_of_str page prop) = false
  /\ forall props, getitem page (lit "properties") = Ok (JDict props) ->
     (props !! prop = None \/ props !! prop = Some JNull ->
      get_prop_number float_of_str page prop = Ok None)
     /\ forall f ty, props !! prop = Some (JDict f) -> f !! lit "type" = Some ty ->
        (eq_str ty (lit "number") = false ->
         get_prop_number float_of_str page prop = Ok None)
        /\ (eq_str ty (lit "number") = true ->
            (f !! lit "number" = None \/ f !! lit "number" = Some JNull ->
             get_prop_number float_of_str page prop = Ok None)
            /\ (forall x, f !! lit "number" = Some (JFloat x) ->
                get_prop_number float_of_str page prop
                = Ok (if PrimFloat.is_nan x then None else Some x))
            /\ (forall z, f !! lit "number" = Some (JInt z) ->
                get_prop_number float_of_str page prop
                = Ok match float_of_int z with
                     | Ok x => if PrimFloat.is_nan x then None else Some x
                     | Raise _ => None
                     end)).
Proof.
  intros Hrec. split.
  { by destruct (get_prop_number_returns float_of_str page prop Hrec) as [r ->]. }
  destruct (is_record_inv page Hrec) as (d & pid & props & -> & Hid & Hp & Hall).
  rewrite (get_prop_number_record _ _ _ _ Hp Hall).
  intros props'. simpl. rewrite Hp. intros [= <-]. split.
  - by intros [-> | ->].
  - intros f ty -> Hty. rewrite Hty. simpl. split; [by intros ->|].
    intros ->. split; [|split].
    + by intros [-> | ->].
    + intros x ->. simpl. by rewrite safe_num_float.
    + intros z ->. simpl. by rewrite safe_num_int.
Qed.

(** The amended C3 at the sample record of Apple: it is a record, and its
    ten shares, stored as an integer, are read as the float 10.0. *)
Lemma get_prop_number_spec_witness :
  is_record Demo.apple = true
  /\ get_prop_number (fun _ => Raise ValueError) Demo.apple PROP_SHARES
     = Ok (Some 10%float).
Proof.
  assert (Hrec : is_record Demo.apple = true) by (vm_compute; reflexivity).
  split; [exact Hrec|].
  destruct (get_prop_number_spec (fun _ => Raise ValueError) Demo.apple PROP_SHARES Hrec)
    as [_ H].
  edestruct H as [_ Hfield]; [vm_compute; reflexivity|].
  edestruct Hfield as [_ Hnum]; [vm_compute; reflexivity..|].
  destruct Hnum as (_ & _ & Hint); [vm_compute; reflexivity|].
  rewrite (Hint 10%Z); [|vm_compute; reflexivity].
  vm_compute. reflexivity.
Defined.

(** *** The text accessor *)

Lemma lstrip_idem (s : str) : lstrip (lstrip s) = lstrip s.
Proof.
  induction s as [|ch s IH]; [done|]. simpl.
  destruct (isspace ch) eqn:Hc; [done|]. simpl. by rewrite Hc.
Qed.

Lemma lstrip_suffix (s : str) : exists pre, s = pre ++ lstrip s.
Proof.
  induction s as [|ch s [pre IH]]; [by exists []|]. simpl.
  destruct (isspace ch); [|by exists []].
  exists (ch :: pre). simpl. by rewrite <- IH.
Qed.

Lemma lstrip_fixed (s : str) :
  lstrip s = s <-> match s with [] => True | ch :: _ => isspace ch = false end.
Proof.
  destruct s as [|ch s]; [done|]. simpl.
  destruct (isspace ch) eqn:Hc; split; try done.
  intros H. assert (Hlen : length (lstrip s) = S (length s)) by by rewrite H.
  assert (length (lstrip s) <= length s); [|lia].
  clear. induction s as [|a s IH]; simpl; [lia|].
  destruct (isspace a); simpl; lia.
Qed.

Lemma all_space_lstrip (s : str) : forallb isspace s = true -> lstrip s = [].
Proof.
  induction s as [|ch s IH]; [done|]. simpl.
  intros [-> Hs]%andb_prop. auto.
Qed.

(** Trimming a string made of white space leaves nothing. *)
Lemma all_space_strip (s : str) : forallb isspace s = true -> strip s = [].
Proof.
  intros H. unfold strip, rstrip. by rewrite (all_space_lstrip s H).
Qed.

Lemma rstrip_idem (s : str) : rstrip (rstrip s) = rstrip s.
Proof. unfold rstrip. by rewrite reverse_involutive, lstrip_idem. Qed.

Lemma lstrip_rstrip (s : str) : lstrip s = s -> lstrip (rstrip s) = rstrip s.
Proof.
  intros Hfix. apply lstrip_fixed.
  destruct (rstrip s) as [|ch r] eqn:Hr; [done|].
  destruct (lstrip_suffix (reverse s)) as [pre Hpre].
  apply (f_equal reverse) in Hpre.
  rewrite reverse_involutive, reverse_app in Hpre.
  fold (rstrip s) in Hpre. rewrite Hr in Hpre.
  apply lstrip_fixed in Hfix. rewrite Hpre in Hfix. exact Hfix.
Qed.

(** Trimming twice is trimming once: what the accessor returns is passed
    through unchanged by the resolver's own trimming. *)
Lemma strip_idem (s : str) : strip (strip s) = strip s.
Proof.
  unfold strip. rewrite (lstrip_rstrip (lstrip s) (lstrip_idem s)).
  apply rstrip_idem.
Qed.

Lemma plain_text_stripped (rt : value) (t : str) :
  plain_text rt = Ok t -> strip t = t.
Proof.
  unfold plain_text. destruct (iter rt) as [ts|]; [|done]. simpl.
  destruct (traverse _ ts) as [parts|]; [|done]. simpl.
  destruct (join parts) as [s|]; [|done]. simpl.
  intros [= <-]. apply strip_idem.
Qed.

(** Whatever the text accessor returns is already trimmed. *)
Lemma get_prop_rich_text_stripped (page : value) (prop t : str) :
  get_prop_rich_text page prop = Ok t -> strip t = t.
Proof.
  unfold get_prop_rich_text.
  destruct (getitem page (lit "properties")) as [props|]; [|done]. simpl.
  destruct (get props prop JNull) as [p|]; [|done]. simpl.
  destruct (truthy p); simpl; [|by intros [= <-]].
  destruct (getitem p (lit "type")) as [ty|]; [|done]. simpl.
  destruct (eq_str ty (lit "rich_text")).
  - destruct (get p (lit "rich_text") (JList [])) as [rt|]; [|done]. simpl.
    apply plain_text_stripped.
  - destruct (eq_str ty (lit "title")); [|by intros [= <-]].
    destruct (get p (lit "title") (JList [])) as [rt|]; [|done]. simpl.
    apply plain_text_stripped.
Qed.

Lemma join_fragments (ts : list value) :
  forallb is_fragment ts = true ->
  exists parts s,
    traverse (fun t => get t (lit "plain_text") (JStr [])) ts = Ok parts
    /\ join parts = Ok s.
Proof.
  induction ts as [|t ts IH]; [by exists [], []|]. simpl.
  intros [Ht Hts]%andb_prop. destruct (IH Hts) as (parts & s & -> & Hj).
  destruct t as [| | | | | |d]; try discriminate. simpl in *.
  destruct (d !! lit "plain_text") as [[| | | |x| |]|]; try discriminate; simpl.
  - exists (JStr x :: parts), (x ++ s). simpl. by rewrite Hj.
  - exists (JStr [] :: parts), s. simpl. by rewrite Hj.
Qed.

Lemma plain_text_fragments (d : gmap str value) (k : str) :
  is_fragments (d !! k) = true ->
  exists t, (rt <- get (JDict d) k (JList []) ;; plain_text rt)%res = Ok t.
Proof.
  simpl. unfold is_fragments, plain_text.
  destruct (d !! k) as [[| | | | |ts|]|]; try discriminate; simpl.
  - intros (parts & s & -> & Hj)%join_fragments. simpl. rewrite Hj. simpl. eauto.
  - eauto.
Qed.

(** On a record the text accessor raises nothing. *)
Lemma get_prop_rich_text_record (page : value) (prop : str) :
  is_record page = true -> exists t, get_prop_rich_text page prop = Ok t.
Proof.
  intros (d & pid & props & -> & Hid & Hp & Hall)%is_record_inv.
  unfold get_prop_rich_text. simpl. rewrite Hp. simpl.
  destruct (props !! prop) as [p|] eqn:Hk; simpl; [|eauto].
  pose proof (Hall _ _ Hk) as Hprop.
  destruct (is_property_truthy p Hprop) as [->|(f & ty & -> & Hty & Ht)];
    [simpl; eauto|].
  rewrite Ht. simpl. rewrite Hty. simpl.
  simpl in Hprop. rewrite Hty in Hprop. apply andb_prop in Hprop as [H1 H2].
  destruct (eq_str ty (lit "rich_text")).
  - by apply plain_text_fragments.
  - destruct (eq_str ty (lit "title")); [|eauto].
    by apply plain_text_fragments.
Qed.

(** A rich-text field whose fragments hold nothing but white space reads
    as the empty string. *)
Lemma whitespace_only_reads_empty (page : value) (props f : gmap str value)
    (prop : str) (parts : list str) :
  getitem page (lit "properties") = Ok (JDict props) ->
  props !! prop = Some (JDict f) ->
  f !! lit "type" = Some (JStr (lit "rich_text")) ->
  f !! lit "rich_text"
  = Some (JList ((fun s => JDict {[ lit "plain_text" := JStr s ]}) <$> parts)) ->
  forallb isspace (concat parts) = true ->
  get_prop_rich_text page prop = Ok [].
Proof.
  intros Hp Hf Hty Hrt Hspace. unfold get_prop_rich_text.
  rewrite Hp. simpl. rewrite Hf. simpl.
  assert (Hne : f <> ∅) by (intros ->; by rewrite lookup_empty in Hty).
  rewrite bool_decide_eq_false_2 by done. simpl.
  rewrite Hty. simpl. rewrite Hrt. simpl. unfold plain_text. simpl.
  assert (Htr : traverse (fun t => get t (lit "plain_text") (JStr []))
                  ((fun s => JDict {[ lit "plain_text" := JStr s ]}) <$> parts)
                = Ok (JStr <$> parts)).
  { clear. induction parts as [|s parts IH]; [done|].
    rewrite fmap_cons. cbn [traverse]. rewrite IH. simpl.
    by rewrite lookup_singleton_eq. }
  assert (Hjoin : join (JStr <$> parts) = Ok (concat parts)).
  { clear. induction parts as [|s parts IH]; [done|].
    rewrite fmap_cons. cbn [join]. by rewrite IH. }
  rewrite Htr. simpl. rewrite Hjoin. simpl. by rewrite all_space_strip.
Qed.

(** *** The price resolver *)

Lemma after_nothing {W : Type} (s : state W) : after s (world s) [] id = s.
Proof. destruct s as [w tr n]. unfold after. simpl. by rewrite app_nil_r. Qed.

Section Resolver.
Context {W : Type} (E : Env W).

(** What [fetch_price] does, by the answers of the provider. *)
Lemma fetch_price_cases (ticker : str) (s : state W) :
  strip ticker <> [] ->
  fetch_price E ticker s =
  let t := strip ticker in
  match fast_last_price E t (world s) with
  | (Raise e, w) => (Ok None, after s w [FastInfo t; Print (PriceError ticker e)] id)
  | (Ok (Some v), w) =>
      match to_float (float_of_str E) v with
      | Ok f => (Ok (Some f), after s w [FastInfo t] id)
      | Raise e => (Ok None, after s w [FastInfo t; Print (PriceError ticker e)] id)
      end
  | (Ok None, w) =>
      match history_last_close E t w with
      | (Raise e, w') =>
          (Ok None, after s w' [FastInfo t; History t; Print (PriceError ticker e)] id)
      | (Ok (Some v), w') =>
          match to_float (float_of_str E) v with
          | Ok f => (Ok (Some f), after s w' [FastInfo t; History t] id)
          | Raise e =>
              (Ok None, after s w' [FastInfo t; History t; Print (PriceError ticker e)] id)
          end
      | (Ok None, w') => (Ok None, after s w' [FastInfo t; History t] id)
      end
  end.
Proof.
  intros Ht. unfold fetch_price. rewrite bool_decide_eq_false_2 by done.
  unfold try_except, io_bind, call, lift, emit, ret, after. simpl.
  destruct (fast_last_price E (strip ticker) (world s)) as [[[v|]|e] w]; simpl.
  - destruct (to_float (float_of_str E) v); simpl; by rewrite <- ?app_assoc.
  - destruct (history_last_close E (strip ticker) w) as [[[v|]|e] w']; simpl.
    + destruct (to_float (float_of_str E) v); simpl; by rewrite <- ?app_assoc.
    + by rewrite <- ?app_assoc.
    + by rewrite <- ?app_assoc.
  - by rewrite <- ?app_assoc.
Qed.

(** [fetch_price] always returns; it touches neither the counters nor the
    store, and calls the provider unless the ticker is blank. *)
Lemma fetch_price_returns (ticker : str) (s : state W) :
  exists price w evs,
    fetch_price E ticker s = (Ok price, after s w evs id)
    /\ updates evs = []
    /\ (strip ticker <> [] -> exists evs', evs = FastInfo (strip ticker) :: evs').
Proof.
  destruct (decide (strip ticker = [])) as [Hb|Hb].
  - exists None, (world s), []. unfold fetch_price.
    rewrite bool_decide_eq_true_2 by done. unfold ret.
    by rewrite after_nothing.
  - rewrite (fetch_price_cases ticker s Hb). simpl.
    destruct (fast_last_price E (strip ticker) (world s)) as [[[v|]|e] w].
    + destruct (to_float (float_of_str E) v); eauto 10.
    + destruct (history_last_close E (strip ticker) w) as [[[v|]|e] w'];
        [destruct (to_float (float_of_str E) v)| |]; eauto 10.
    + eauto 10.
Qed.
End Resolver.

(** *** The loop body *)

Section Body.
Context {W : Type} (E : Env W) (c : config).

Lemma process_page_no_ticker (page pid : value) (s : state W) :
  getitem page (lit "id") = Ok pid ->
  get_prop_rich_text page PROP_TICKER = Ok [] ->
  process_page E c page s = (Ok tt, after s (world s) [] incr_skipped).
Proof.
  intros Hid Ht. unfold process_page, io_bind, lift, modify_tally, after.
  rewrite Hid, Ht. simpl. by rewrite app_nil_r.
Qed.

Lemma process_page_has_price (page pid : value) (ticker : str)
    (shares avg_cost : option float) (x : float) (s : state W) :
  reads E page pid ticker shares avg_cost (Some x) ->
  ticker <> [] ->
  UPDATE_ONLY_MISSING c = true ->
  process_page E c page s = (Ok tt, after s (world s) [] incr_skipped).
Proof.
  intros (Hid & Ht & Hs & Ha & Hx) Hne Hmode.
  unfold process_page, io_bind, lift, modify_tally, after.
  rewrite Hid, Ht. simpl. rewrite bool_decide_eq_false_2 by done.
  rewrite Hs, Ha, Hx, Hmode. simpl. by rewrite app_nil_r.
Qed.

(** Past the two skips the body is the fetch followed by either the
    failure count or the write. *)
Lemma process_page_fetch (page pid : value) (ticker : str)
    (shares avg_cost existing : option float) (s : state W) :
  reads E page pid ticker shares avg_cost existing ->
  ticker <> [] ->
  UPDATE_ONLY_MISSING c = false \/ existing = None ->
  process_page E c page s =
  match fetch_price E ticker s with
  | (Ok None, s1) => (Ok tt, after s1 (world s1) [Print (Warn ticker)] incr_failed)
  | (Ok (Some price), s1) => write_back E page pid ticker shares avg_cost price s1
  | (Raise e, s1) => (Raise e, s1)
  end.
Proof.
  intros (Hid & Ht & Hs & Ha & Hx) Hne Hmode.
  unfold process_page, io_bind at 1 2 3 4 5 6, lift.
  rewrite Hid, Ht. simpl. rewrite bool_decide_eq_false_2 by done.
  rewrite Hs, Ha, Hx.
  assert (UPDATE_ONLY_MISSING c && bool_decide (existing <> None) = false) as ->.
  { destruct Hmode as [-> | ->]; [done|].
    rewrite bool_decide_eq_false_2 by naive_solver. apply andb_false_r. }
  unfold io_bind.
  destruct (fetch_price E ticker s) as [[[price|]|e] s1]; done.
Qed.

(** What the write does, by the answer of the store. *)
Lemma write_back_cases (page pid : value) (ticker : str)
    (shares avg_cost : option float) (price : float) (s : state W) :
  write_back E page pid ticker shares avg_cost price s =
  let '(iso, w) := utcnow_isoformat E (world s) in
  let value := (compute_metrics shares avg_cost (Some price)).1 in
  let pl_pct := (compute_metrics shares avg_cost (Some price)).2 in
  let props := output_properties (Some price) value pl_pct iso in
  match pages_update E pid props w with
  | (Ok _, w') =>
      match get_prop_rich_text page PROP_TITLE with
      | Ok title =>
          let title := if bool_decide (title = []) then ticker else title in
          (Ok tt, after s w' [Update pid props;
                              Print (OkLine title ticker price value pl_pct)]
                    incr_updated)
      | Raise e =>
          (Ok tt, after s w' [Update pid props; Print (NotionError ticker e)]
                    (fun n => incr_failed (incr_updated n)))
      end
  | (Raise e, w') =>
      (Ok tt, after s w' [Update pid props; Print (NotionError ticker e)] incr_failed)
  end.
Proof.
  unfold write_back.
  destruct (compute_metrics shares avg_cost (Some price)) as [value pl_pct].
  unfold try_except, update_page, io_bind, now_iso, call, modify_tally, lift, emit, after.
  simpl.
  destruct (utcnow_isoformat E (world s)) as [iso w]. simpl.
  destruct (pages_update E pid _ w) as [[[]|e] w']; simpl.
  - destruct (get_prop_rich_text page PROP_TITLE) as [title|e]; simpl;
      by rewrite <- ?app_assoc.
  - by rewrite <- ?app_assoc.
Qed.
End Body.

Lemma updates_app (a b : list event) : updates (a ++ b) = updates a ++ updates b.
Proof. apply omap_app. Qed.

(** C4: a record whose ticker, as the accessor returns it, is empty (an
    empty or white-space-only field) leaves the loop body with no event at
    all, so neither fetched nor written, the world untouched, and the
    skipped counter one higher. *)
Theorem blank_ticker_is_skipped {W : Type} (E : Env W) (c : config)
    (page pid : value) (s : state W) :
  getitem page (lit "id") = Ok pid ->
  get_prop_rich_text page PROP_TICKER = Ok [] ->
  process_page E c page s
  = (Ok tt, {| world := world s; trace := trace s; tally := incr_skipped (tally s) |})
  /\ fetches (trace (process_page E c page s).2) = fetches (trace s)
  /\ updates (trace (process_page E c page s).2) = updates (trace s).
Proof.
  intros Hid Ht. rewrite (process_page_no_ticker E c page pid s Hid Ht).
  unfold after. simpl. by rewrite app_nil_r.
Qed.

(** C4 at the sample record whose ticker is three spaces. *)
Lemma blank_ticker_is_skipped_witness :
  getitem Demo.blank (lit "id") = Ok (JStr (lit "p2"))
  /\ get_prop_rich_text Demo.blank PROP_TICKER = Ok []
  /\ process_page Demo.env (Demo.settings 1 false) Demo.blank Demo.start
     = (Ok tt, {| world := 0; trace := [];
                  tally := {| updated := 0; skipped := 1; failed := 0 |} |}).
Proof.
  assert (H1 : getitem Demo.blank (lit "id") = Ok (JStr (lit "p2")))
    by (vm_compute; reflexivity).
  assert (H2 : get_prop_rich_text Demo.blank PROP_TICKER = Ok [])
    by (vm_compute; reflexivity).
  split; [exact H1|]. split; [exact H2|].
  exact (proj1 (blank_ticker_is_skipped Demo.env (Demo.settings 1 false)
                  Demo.blank _ Demo.start H1 H2)).
Defined.

(** *** Resolved price, scaling factor and the write *)

Section Writes.
Context {W : Type} (E : Env W) (c : config).

(** The write issues exactly one update, for the id of the record, with
    the resolved price and the metrics computed from it. *)
Lemma write_back_updates (page pid : value) (ticker : str)
    (shares avg_cost : option float) (price : float) (s : state W) :
  exists s' iso,
    write_back E page pid ticker shares avg_cost price s = (Ok tt, s')
    /\ updates (trace s')
       = updates (trace s)
         ++ [(pid, output_properties (Some price)
                     (compute_metrics shares avg_cost (Some price)).1
                     (compute_metrics shares avg_cost (Some price)).2 iso)].
Proof.
  rewrite write_back_cases.
  destruct (utcnow_isoformat E (world s)) as [iso w]. simpl.
  destruct (pages_update E pid _ w) as [[[]|e] w'];
    [destruct (get_prop_rich_text page PROP_TITLE)|];
    eexists _, iso; (split; [reflexivity|]);
    unfold after; simpl; by rewrite updates_app.
Qed.
End Writes.

(** C2, as stated, at the sample record of Apple with the scaling factor
    set to 2: the provider resolves 110, and the price written is not
    110 times the factor. *)
Lemma scaling_factor_not_applied :
  (fetch_price Demo.env (lit "AAPL") Demo.start).1 = Ok (Some 110%float)
  /\ written_field PROP_PRICE
       (trace (process_page Demo.env (Demo.settings 2 false) Demo.apple Demo.start).2)
     <> [Some (notion_number (Some (110 * FX_RATE (Demo.settings 2 false))%float))].
Proof.
  split; [vm_compute; reflexivity|]. intros H.
  apply (f_equal (fun l => match l with
                           | [Some (JDict d)] =>
                               match d !! lit "number" with
                               | Some (JFloat f) => PrimFloat.eqb f 110
                               | _ => false
                               end
                           | _ => false
                           end)) in H.
  vm_compute in H. discriminate H.
Qed.

(** C2, amended: for every record that reaches the write step and every
    configured scaling factor, the price passed to the metric computation
    and written to the record is the resolved price itself; the factor is
    not applied. *)
Theorem written_price_is_resolved_price {W : Type} (E : Env W) (c : config)
    (page pid : value) (ticker : str) (shares avg_cost existing : option float)
    (price : float) (s s1 : state W) :
  reads E page pid ticker shares avg_cost existing ->
  ticker <> [] ->
  UPDATE_ONLY_MISSING c = false \/ existing = None ->
  fetch_price E ticker s = (Ok (Some price), s1) ->
  exists s' iso,
    process_page E c page s = (Ok tt, s')
    /\ updates (trace s')
       = updates (trace s1)
         ++ [(pid, output_properties (Some price)
                     (compute_metrics shares avg_cost (Some price)).1
                     (compute_metrics shares avg_cost (Some price)).2 iso)]
    /\ written_field PROP_PRICE (trace s')
       = written_field PROP_PRICE (trace s1) ++ [Some (notion_number (Some price))].
Proof.
  intros Hr Hne Hmode Hf.
  rewrite (process_page_fetch E c _ _ _ _ _ _ s Hr Hne Hmode), Hf.
  destruct (write_back_updates E page pid ticker shares avg_cost price s1)
    as (s' & iso & Hw & Hu).
  exists s', iso. split; [exact Hw|]. split; [exact Hu|].
  unfold written_field. rewrite Hu, fmap_app. reflexivity.
Qed.

(** The amended C2 at the sample record of Apple with the factor set to 2:
    the price written is the resolved 110. *)
Lemma written_price_is_resolved_price_witness :
  reads Demo.env Demo.apple (JStr (lit "p1")) (lit "AAPL")
    (Some 10%float) (Some 100%float) (Some 105%float)
  /\ lit "AAPL" <> []
  /\ written_field PROP_PRICE
       (trace (process_page Demo.env (Demo.settings 2 false) Demo.apple Demo.start).2)
     = [Some (notion_number (Some 110%float))].
Proof.
  assert (Hr : reads Demo.env Demo.apple (JStr (lit "p1")) (lit "AAPL")
                 (Some 10%float) (Some 100%float) (Some 105%float))
    by (repeat split; vm_compute; reflexivity).
  assert (Hne : lit "AAPL" <> []) by discriminate.
  split; [exact Hr|]. split; [exact Hne|].
  destruct (written_price_is_resolved_price Demo.env (Demo.settings 2 false)
              Demo.apple _ _ _ _ _ 110%float Demo.start
              (after Demo.start 1 [FastInfo (lit "AAPL")] id) Hr Hne)
    as (s' & iso & Hp & _ & Hw);
    [by left | vm_compute; reflexivity |].
  rewrite Hp. simpl. rewrite Hw. reflexivity.
Defined.

(** *** Failures of the price provider *)

(** C5: whatever the provider raises while a ticker is resolved (from the
    fast lookup, from the history fallback, or from converting a malformed
    answer) is caught inside the resolver, which then returns unavailable;
    the resolver never raises.  The loop body then counts the record as
    failed, issues no write, and the loop goes on with the next record. *)
Theorem provider_failure_is_contained {W : Type} (E : Env W) (c : config) :
  (forall ticker s, raises (fetch_price E ticker s).1 = false)
  /\ (forall ticker s e w,
        strip ticker <> [] ->
        fast_last_price E (strip ticker) (world s) = (Raise e, w) ->
        (fetch_price E ticker s).1 = Ok None)
  /\ (forall ticker s e w w',
        strip ticker <> [] ->
        fast_last_price E (strip ticker) (world s) = (Ok None, w) ->
        history_last_close E (strip ticker) w = (Raise e, w') ->
        (fetch_price E ticker s).1 = Ok None)
  /\ (forall ticker s v e w,
        strip ticker <> [] ->
        fast_last_price E (strip ticker) (world s) = (Ok (Some v), w) ->
        to_float (float_of_str E) v = Raise e ->
        (fetch_price E ticker s).1 = Ok None)
  /\ (forall ticker s v e w w',
        strip ticker <> [] ->
        fast_last_price E (strip ticker) (world s) = (Ok None, w) ->
        history_last_close E (strip ticker) w = (Ok (Some v), w') ->
        to_float (float_of_str E) v = Raise e ->
        (fetch_price E ticker s).1 = Ok None)
  /\ (forall page pid ticker shares avg_cost existing s rest,
        reads E page pid ticker shares avg_cost existing ->
        ticker <> [] ->
        UPDATE_ONLY_MISSING c = false \/ existing = None ->
        (fetch_price E ticker s).1 = Ok None ->
        exists s',
          process_page E c page s = (Ok tt, s')
          /\ tally s' = incr_failed (tally s)
          /\ updates (trace s') = updates (trace s)
          /\ for_pages E c (page :: rest) s = for_pages E c rest s').
Proof.
  split; [|split; [|split; [|split; [|split]]]].
  - intros ticker s.
    destruct (fetch_price_returns E ticker s) as (price & w & evs & -> & _). done.
  - intros ticker s e w Ht Hfast.
    rewrite (fetch_price_cases E ticker s Ht). simpl. by rewrite Hfast.
  - intros ticker s e w w' Ht Hfast Hhist.
    rewrite (fetch_price_cases E ticker s Ht). simpl. by rewrite Hfast, Hhist.
  - intros ticker s v e w Ht Hfast Hconv.
    rewrite (fetch_price_cases E ticker s Ht). simpl. by rewrite Hfast, Hconv.
  - intros ticker s v e w w' Ht Hfast Hhist Hconv.
    rewrite (fetch_price_cases E ticker s Ht). simpl.
    by rewrite Hfast, Hhist, Hconv.
  - intros page pid ticker shares avg_cost existing s rest Hr Hne Hmode Hnone.
    destruct (fetch_price_returns E ticker s) as (price & w & evs & Hf & Hu & _).
    rewrite Hf in Hnone. simpl in Hnone. injection Hnone as ->.
    eexists. split.
    { rewrite (process_page_fetch E c _ _ _ _ _ _ s Hr Hne Hmode), Hf. reflexivity. }
    split; [reflexivity|]. split.
    { unfold after. simpl. rewrite !updates_app, Hu. simpl. by rewrite !app_nil_r. }
    simpl. unfold io_bind at 1.
    by rewrite (process_page_fetch E c _ _ _ _ _ _ s Hr Hne Hmode), Hf.
Qed.

(** C5 at the sample record of Microsoft, for which the provider raises a
    time-out: the record is counted as failed and only the lookup and two
    log lines happen. *)
Lemma provider_failure_is_contained_witness :
  reads Demo.env Demo.msft (JStr (lit "p3")) (lit "MSFT")
    (Some 3%float) (Some 250%float) None
  /\ fast_last_price Demo.env (strip (lit "MSFT")) 0 = (Raise (External "timeout"), 1)
  /\ (fetch_price Demo.env (lit "MSFT") Demo.start).1 = Ok None
  /\ exists s',
       process_page Demo.env (Demo.settings 1 false) Demo.msft Demo.start = (Ok tt, s')
       /\ tally s' = {| updated := 0; skipped := 0; failed := 1 |}
       /\ updates (trace s') = [].
Proof.
  assert (Hr : reads Demo.env Demo.msft (JStr (lit "p3")) (lit "MSFT")
                 (Some 3%float) (Some 250%float) None)
    by (repeat split; vm_compute; reflexivity).
  assert (Hfast : fast_last_price Demo.env (strip (lit "MSFT")) (world Demo.start)
                  = (Raise (External "timeout"), 1))
    by (vm_compute; reflexivity).
  assert (Hne : strip (lit "MSFT") <> []) by (vm_compute; discriminate).
  destruct (provider_failure_is_contained Demo.env (Demo.settings 1 false))
    as (_ & Hcaught & _ & _ & _ & Hloop).
  pose proof (Hcaught (lit "MSFT") Demo.start _ _ Hne Hfast) as Hnone.
  split; [exact Hr|]. split; [exact Hfast|]. split; [exact Hnone|].
  destruct (Hloop Demo.msft _ _ _ _ _ Demo.start [] Hr) as (s' & Hp & Ht & Hu & _);
    [discriminate | by left | exact Hnone |].
  exists s'. split; [exact Hp|]. split; [exact Ht|exact Hu].
Defined.

(** *** Missing-only mode *)

(** C8: for a record with a non-empty ticker and an existing price, the
    loop body under missing-only mode issues no event and counts the record
    as skipped; with the mode off it asks the provider for that ticker and,
    when a price is resolved, issues the update of that record. *)
Theorem missing_only_mode {W : Type} (E : Env W) (c : config)
    (page pid : value) (ticker : str) (shares avg_cost : option float)
    (x : float) (s : state W) :
  reads E page pid ticker shares avg_cost (Some x) ->
  ticker <> [] ->
  (UPDATE_ONLY_MISSING c = true ->
   process_page E c page s
   = (Ok tt, {| world := world s; trace := trace s; tally := incr_skipped (tally s) |}))
  /\ (UPDATE_ONLY_MISSING c = false ->
      exists price w evs s',
        fetch_price E ticker s = (Ok price, after s w (FastInfo ticker :: evs) id)
        /\ process_page E c page s = (Ok tt, s')
        /\ forall p, price = Some p ->
           exists iso,
             updates (trace s')
             = updates (trace s)
               ++ [(pid, output_properties (Some p)
                           (compute_metrics shares avg_cost (Some p)).1
                           (compute_metrics shares avg_cost (Some p)).2 iso)]).
Proof.
  intros Hr Hne. split; intros Hmode.
  - rewrite (process_page_has_price E c _ _ _ _ _ _ s Hr Hne Hmode).
    unfold after. simpl. by rewrite app_nil_r.
  - assert (Hstrip : strip ticker = ticker).
    { destruct Hr as (_ & Ht & _). by apply get_prop_rich_text_stripped in Ht. }
    destruct (fetch_price_returns E ticker s) as (price & w & evs & Hf & Hu & Hcall).
    rewrite Hstrip in Hcall. destruct (Hcall Hne) as [evs' ->].
    rewrite (process_page_fetch E c _ _ _ _ _ _ s Hr Hne (or_introl Hmode)), Hf.
    destruct price as [p|].
    + destruct (write_back_updates E page pid ticker shares avg_cost p
                  (after s w (FastInfo ticker :: evs') id)) as (s' & iso & Hw & Hupd).
      exists (Some p), w, evs', s'. split; [done|]. split; [exact Hw|].
      intros p' [= <-]. exists iso. rewrite Hupd. unfold after. simpl.
      by rewrite updates_app, Hu, app_nil_r.
    + eexists None, w, evs', _. split; [done|]. split; [reflexivity|]. done.
Qed.

(** C8 at the sample record of Apple, whose price field holds 105: skipped
    under missing-only mode, fetched and written with the mode off. *)
Lemma missing_only_mode_witness :
  reads Demo.env Demo.apple (JStr (lit "p1")) (lit "AAPL")
    (Some 10%float) (Some 100%float) (Some 105%float)
  /\ lit "AAPL" <> []
  /\ process_page Demo.env (Demo.settings 1 true) Demo.apple Demo.start
     = (Ok tt, {| world := 0; trace := [];
                  tally := {| updated := 0; skipped := 1; failed := 0 |} |})
  /\ length (updates (trace
       (process_page Demo.env (Demo.settings 1 false) Demo.apple Demo.start).2)) = 1.
Proof.
  assert (Hr : reads Demo.env Demo.apple (JStr (lit "p1")) (lit "AAPL")
                 (Some 10%float) (Some 100%float) (Some 105%float))
    by (repeat split; vm_compute; reflexivity).
  assert (Hne : lit "AAPL" <> []) by discriminate.
  split; [exact Hr|]. split; [exact Hne|]. split.
  - exact (proj1 (missing_only_mode Demo.env (Demo.settings 1 true)
                    Demo.apple _ _ _ _ _ Demo.start Hr Hne) eq_refl).
  - destruct (proj2 (missing_only_mode Demo.env (Demo.settings 1 false)
                       Demo.apple _ _ _ _ _ Demo.start Hr Hne) eq_refl)
      as (price & w & evs & s' & Hf & Hp & Hw).
    rewrite Hp. simpl.
    assert (Hprice : price = Some 110%float).
    { apply (f_equal fst) in Hf. vm_compute in Hf. by injection Hf. }
    destruct (Hw _ Hprice) as [iso ->]. reflexivity.
Defined.

(** *** The record writer *)

Lemma output_properties_lookup (price value pl_pct : option float) (iso k : str) :
  output_properties price value pl_pct iso !! k
  = if decide (k = PROP_PRICE) then Some (notion_number price)
    else if decide (k = PROP_VALUE) then Some (notion_number value)
    else if decide (k = PROP_PL_PCT) then Some (notion_number pl_pct)
    else if decide (k = PROP_LAST_UPDATED) then Some (notion_date iso)
    else None.
Proof.
  unfold output_properties.
  repeat (case_decide; [subst k; by simplify_map_eq|]).
  by simplify_map_eq.
Qed.

(** C9: every call of the writer sends one update whose field map has
    exactly the four keys Price, Value, P/L % and Last Updated; each of the
    three numbers is sent as a number object, holding null when the number
    is absent (the key is there, the field is cleared); and under the
    store's partial-update contract every other field of the record keeps
    its value. *)
Theorem update_page_sends_four_fields {W : Type} (E : Env W)
    (pid : value) (price value pl_pct : option float) (s : state W) :
  exists r w iso props,
    update_page E pid price value pl_pct s = (r, after s w [Update pid props] id)
    /\ dom props = ({[ PROP_PRICE; PROP_VALUE; PROP_PL_PCT; PROP_LAST_UPDATED ]} : gset str)
    /\ props !! PROP_PRICE = Some (notion_number price)
    /\ props !! PROP_VALUE = Some (notion_number value)
    /\ props !! PROP_PL_PCT = Some (notion_number pl_pct)
    /\ props !! PROP_LAST_UPDATED = Some (notion_date iso)
    /\ notion_number None = JDict {[ lit "number" := JNull ]}
    /\ forall (old : gmap str Py.value) (k : str),
         (k ∈ dom props -> store_patch props old !! k = props !! k)
         /\ (k ∉ dom props -> store_patch props old !! k = old !! k).
Proof.
  unfold update_page, io_bind, now_iso, call, after.
  destruct (utcnow_isoformat E (world s)) as [iso w]. simpl.
  destruct (pages_update E pid _ w) as [r w'] eqn:Hupd.
  exists r, w', iso, (output_properties price value pl_pct iso).
  split; [reflexivity|].
  split; [unfold output_properties; rewrite !dom_insert_L, dom_singleton_L; set_solver|].
  do 4 (split; [by rewrite output_properties_lookup|]). split; [reflexivity|].
  intros old k. unfold store_patch. split.
  - intros [v Hv]%elem_of_dom. rewrite Hv. by apply lookup_union_Some_l.
  - intros Hk%not_elem_of_dom. by rewrite lookup_union_r.
Qed.

(** *** Pagination *)

Section Pagination.
Context {W : Type} (E : Env W) (c : config) (database_id : str).

End Pagination.

(** *** Start-up and exit *)

(** C7: when the token or the database id is unset, [main] ends with
    [SystemExit] carrying exactly the names of the unset ones, the exit
    status is not zero, and the state is untouched: nothing was asked of
    the store or of the provider.  When both are set and the run gets
    through the collection and the loop, [main] returns and the exit status
    is zero, whatever the counters say. *)
Theorem missing_settings_abort {W : Type} (E : Env W) (c : config)
    (fuel : nat) (s : state W) :
  (unset (NOTION_TOKEN c) = true \/ unset (DATABASE_ID c) = true ->
   exists missing,
     main E c fuel s = (Some (SystemExit missing), s)
     /\ exit_status (SystemExit missing) <> 0%Z
     /\ missing
        = (if unset (NOTION_TOKEN c) then [lit "NOTION_TOKEN"] else [])
          ++ (if unset (DATABASE_ID c) then [lit "NOTION_DATABASE_ID"] else []))
  /\ (unset (NOTION_TOKEN c) = false ->
      forall db pages s1 s2,
        DATABASE_ID c = Some db ->
        db <> [] ->
        query_all_pages E fuel db s = (Ok (Some pages), s1) ->
        reconcile E c pages s1 = (Ok tt, s2) ->
        main E c fuel s = (Some Returned, s2) /\ exit_status Returned = 0%Z).
Proof.
  split.
  - intros Hunset. unfold main, require_env.
    destruct (unset (NOTION_TOKEN c)), (unset (DATABASE_ID c)); simpl;
      try (eexists; repeat split; done).
    by destruct Hunset.
  - intros Htoken db pages s1 s2 Hdb Hne Hq Hrec.
    unfold main, require_env. rewrite Htoken, Hdb. simpl.
    rewrite (bool_decide_eq_false_2 (db = [])) by done. simpl.
    unfold run, io_bind. rewrite Hq, Hrec. done.
Qed.

(** C7 at a configuration without a token, and at a full run over the
    sample store in which two records fail. *)
Lemma missing_settings_abort_witness :
  main Demo.env
    {| NOTION_TOKEN := None; DATABASE_ID := Some (lit "db");
       BASE_CURRENCY := lit "USD"; FX_RATE := 1; UPDATE_ONLY_MISSING := false |}
    5 Demo.start
  = (Some (SystemExit [lit "NOTION_TOKEN"]), Demo.start)
  /\ exists s2,
       main Demo.env (Demo.settings 1 false) 5 Demo.start = (Some Returned, s2)
       /\ failed (tally s2) = 2.
Proof.
  split.
  - destruct (proj1 (missing_settings_abort Demo.env
                       {| NOTION_TOKEN := None; DATABASE_ID := Some (lit "db");
                          BASE_CURRENCY := lit "USD"; FX_RATE := 1;
                          UPDATE_ONLY_MISSING := false |} 5 Demo.start))
      as (missing & Hmain & _ & ->); [by left|exact Hmain].
  - eexists. split.
    + eapply (proj2 (missing_settings_abort Demo.env (Demo.settings 1 false)
                       5 Demo.start) eq_refl (lit "db"));
        [reflexivity|discriminate|vm_compute; reflexivity..].
    + vm_compute. reflexivity.
Defined.

(** *** The counters *)

Section Counting.
Context {W : Type} (E : Env W) (c : config).

(** On a record every read of the loop body succeeds. *)
Lemma record_reads (page : value) :
  is_record page = true ->
  exists pid ticker shares avg_cost existing title,
    reads E page pid ticker shares avg_cost existing
    /\ get_prop_rich_text page PROP_TITLE = Ok title.
Proof.
  intros Hrec.
  destruct (is_record_inv page Hrec) as (d & pid & props & -> & Hid & _).
  destruct (get_prop_rich_text_record _ PROP_TICKER Hrec) as [ticker Ht].
  destruct (get_prop_rich_text_record _ PROP_TITLE Hrec) as [title Htitle].
  destruct (get_prop_number_returns (float_of_str E) _ PROP_SHARES Hrec) as [shares Hs].
  destruct (get_prop_number_returns (float_of_str E) _ PROP_AVG_COST Hrec) as [avg_cost Ha].
  destruct (get_prop_number_returns (float_of_str E) _ PROP_PRICE Hrec) as [existing Hx].
  exists pid, ticker, shares, avg_cost, existing, title.
  repeat split; try done. simpl. by rewrite Hid.
Qed.

(** The loop body, run on a record, returns and bumps one counter. *)
Lemma process_page_counts_once (page : value) (s : state W) :
  is_record page = true ->
  exists s',
    process_page E c page s = (Ok tt, s')
    /\ (tally s' = incr_updated (tally s)
        \/ tally s' = incr_skipped (tally s)
        \/ tally s' = incr_failed (tally s)).
Proof.
  intros (pid & ticker & shares & avg_cost & existing & title & Hr & Htitle)%record_reads.
  destruct (decide (ticker = [])) as [->|Hne].
  { destruct Hr as (Hid & Ht & _).
    rewrite (process_page_no_ticker E c page pid s Hid Ht). eauto. }
  destruct (UPDATE_ONLY_MISSING c) eqn:Hmode, existing as [x|];
    try (rewrite (process_page_has_price E c _ _ _ _ _ _ s Hr Hne Hmode); by eauto).
  all: rewrite (process_page_fetch E c _ _ _ _ _ _ s Hr Hne) by auto.
  all: destruct (fetch_price_returns E ticker s) as ([p|] & w & evs & -> & _);
    [|by eauto].
  all: rewrite write_back_cases; rewrite Htitle.
  all: destruct (utcnow_isoformat E (world _)) as [iso w0]; simpl.
  all: destruct (pages_update E pid _ w0) as [[[]|e] w']; by eauto.
Qed.

Lemma total_incr (n : counters) :
  total (incr_updated n) = S (total n)
  /\ total (incr_skipped n) = S (total n)
  /\ total (incr_failed n) = S (total n).
Proof. unfold total. simpl. lia. Qed.

Lemma for_pages_counts (pages : list value) (s : state W) :
  Forall (fun page => is_record page = true) pages ->
  exists s',
    for_pages E c pages s = (Ok tt, s')
    /\ total (tally s') = total (tally s) + length pages.
Proof.
  intros Hall. revert s.
  induction Hall as [|page pages Hrec _ IH]; intros s; simpl.
  - exists s. split; [done|lia].
  - destruct (process_page_counts_once page s Hrec) as (s1 & Hp & Hn).
    destruct (IH s1) as (s' & Hf & Ht).
    exists s'. unfold io_bind. rewrite Hp. split; [exact Hf|].
    rewrite Ht. destruct (total_incr (tally s)) as (Hu & Hk & Hfl).
    destruct Hn as [-> | [-> | ->]]; lia.
Qed.
End Counting.

(** X19: run on a well-formed record, the loop body returns with exactly
    one of the three counters one higher and the other two unchanged; so
    over well-formed records the loop completes and the summary line
    reports counters whose sum is the number of records. *)
Theorem counters_add_up {W : Type} (E : Env W) (c : config)
    (pages : list value) (s : state W) :
  Forall (fun page => is_record page = true) pages ->
  (forall page s0, page ∈ pages ->
     exists s1,
       process_page E c page s0 = (Ok tt, s1)
       /\ (tally s1 = incr_updated (tally s0)
           \/ tally s1 = incr_skipped (tally s0)
           \/ tally s1 = incr_failed (tally s0)))
  /\ exists s' n,
       reconcile E c pages s = (Ok tt, s')
       /\ tally s' = n
       /\ last (trace s')
          = Some (Print (Done (updated n) (skipped n) (failed n)
                           (BASE_CURRENCY c) (FX_RATE c)))
       /\ updated n + skipped n + failed n = length pages.
Proof.
  intros Hall. split.
  - intros page s0 Hin. apply process_page_counts_once.
    by apply (proj1 (Forall_forall _ _) Hall).
  - unfold reconcile, io_bind, emit, modify_tally, get_tally. simpl.
    destruct (for_pages_counts E c pages
                {| world := world s;
                   trace := trace s ++ [Print (InfoPages (length pages))];
                   tally := {| updated := 0; skipped := 0; failed := 0 |} |} Hall)
      as (s' & -> & Ht).
    eexists _, (tally s'). split; [reflexivity|]. simpl.
    split; [reflexivity|]. split; [by rewrite last_snoc|exact Ht].
Qed.

(** X19 at the four sample records: one updated, one skipped, two failed. *)
Lemma counters_add_up_witness :
  Forall (fun page => is_record page = true)
    [Demo.apple; Demo.blank; Demo.msft; Demo.unknown]
  /\ exists s',
       reconcile Demo.env (Demo.settings 1 false)
         [Demo.apple; Demo.blank; Demo.msft; Demo.unknown] Demo.start = (Ok tt, s')
       /\ updated (tally s') + skipped (tally s') + failed (tally s') = 4.
Proof.
  assert (Hall : Forall (fun page => is_record page = true)
                   [Demo.apple; Demo.blank; Demo.msft; Demo.unknown])
    by (repeat constructor; vm_compute; reflexivity).
  split; [exact Hall|].
  destruct (proj2 (counters_add_up Demo.env (Demo.settings 1 false) _ Demo.start Hall))
    as (s' & n & Hrun & <- & _ & Hsum).
  exists s'. split; [exact Hrun|exact Hsum].
Defined.

(** C10, at a record whose title cannot be read (it holds null where the
    fragments belong) and whose update the store accepts: the loop
    completes, and this one record has been counted twice, as updated and
    as failed, so the counters add up to 2 for 1 record.  The title is read
    inside the [try] block after [updated += 1], and the [except] clause
    then adds to [failed]. *)
Lemma odd_title_counted_twice :
  exists s',
    reconcile Demo.env (Demo.settings 1 false) [Demo.odd_title] Demo.start = (Ok tt, s')
    /\ tally s' = {| updated := 1; skipped := 0; failed := 1 |}
    /\ updated (tally s') + skipped (tally s') + failed (tally s') = 2
    /\ length [Demo.odd_title] = 1.
Proof.
  eexists. split; [vm_compute; reflexivity|]. simpl. repeat split.
Qed.

(** *** Pagination and the loop over what it returns *)

Section Drained.
Context {W : Type} (E : Env W) (c : config).

End Drained.




(** ** Further properties of the script *)

(** *** The text accessor, beyond the ticker *)

Lemma strip_fixed_ends (t : str) :
  strip t = t -> lstrip t = t /\ lstrip (reverse t) = reverse t.
Proof.
  intros Hfix.
  assert (Hl : lstrip t = t).
  { rewrite <- Hfix at 1. unfold strip.
    rewrite (lstrip_rstrip (lstrip t) (lstrip_idem t)). exact Hfix. }
  split; [exact Hl|].
  unfold strip in Hfix. rewrite Hl in Hfix. unfold rstrip in Hfix.
  apply (f_equal reverse) in Hfix. by rewrite reverse_involutive in Hfix.
Qed.

(** X1: whatever the text accessor returns is trimmed: trimming it again
    changes nothing, and neither its first nor its last character is
    white space. *)
Theorem text_accessor_trimmed (page : value) (prop t : str) :
  get_prop_rich_text page prop = Ok t ->
  strip t = t
  /\ (forall ch, head t = Some ch -> isspace ch = false)
  /\ (forall ch, last t = Some ch -> isspace ch = false).
Proof.
  intros Hfix%get_prop_rich_text_stripped.
  destruct (strip_fixed_ends t Hfix) as [Hl Hr].
  split; [exact Hfix|]. split.
  - intros ch Hh. apply lstrip_fixed in Hl.
    destruct t as [|c0 t']; [done|]. by injection Hh as <-.
  - intros ch Hlast. apply lstrip_fixed in Hr.
    rewrite <- (reverse_involutive t) in Hlast.
    destruct (reverse t) as [|c0 r]; [done|].
    rewrite reverse_cons, last_snoc in Hlast. by injection Hlast as <-.
Qed.

(** X1 at the sample record of Apple. *)
Lemma text_accessor_trimmed_witness :
  get_prop_rich_text Demo.apple PROP_TICKER = Ok (lit "AAPL")
  /\ strip (lit "AAPL") = lit "AAPL".
Proof.
  assert (H : get_prop_rich_text Demo.apple PROP_TICKER = Ok (lit "AAPL"))
    by (vm_compute; reflexivity).
  split; [exact H|].
  exact (proj1 (text_accessor_trimmed Demo.apple PROP_TICKER (lit "AAPL") H)).
Defined.

Lemma traverse_fragment_text (frags : list value) (parts : list str) :
  Forall2 fragment_text frags parts ->
  traverse (fun t => get t (lit "plain_text") (JStr [])) frags = Ok (JStr <$> parts).
Proof.
  induction 1 as [|t s frags parts (d & -> & Hd) _ IH]; [done|].
  rewrite fmap_cons. cbn [traverse]. rewrite IH. simpl. by rewrite Hd.
Qed.

Lemma join_strs (parts : list str) : join (JStr <$> parts) = Ok (concat parts).
Proof.
  induction parts as [|s parts IH]; [done|].
  rewrite fmap_cons. cbn [join]. by rewrite IH.
Qed.

(** X2: what the text accessor reads from a property bag.  A missing or
    null field and a field of any type other than rich text and title read
    as the empty string; a rich-text or title field reads as its fragments'
    texts, concatenated in order and then trimmed (a fragment without a
    text counts as empty, a field without a fragment list as no
    fragments). *)
Theorem get_prop_rich_text_spec (page : value) (props : gmap str value) (prop : str) :
  getitem page (lit "properties") = Ok (JDict props) ->
  (props !! prop = None \/ props !! prop = Some JNull ->
   get_prop_rich_text page prop = Ok [])
  /\ forall f ty,
       props !! prop = Some (JDict f) -> f !! lit "type" = Some ty ->
       (eq_str ty (lit "rich_text") = false -> eq_str ty (lit "title") = false ->
        get_prop_rich_text page prop = Ok [])
       /\ forall kind,
            ty = JStr (lit kind) -> kind = "rich_text"%string \/ kind = "title"%string ->
            (f !! lit kind = None -> get_prop_rich_text page prop = Ok [])
            /\ forall frags parts,
                 f !! lit kind = Some (JList frags) ->
                 Forall2 fragment_text frags parts ->
                 get_prop_rich_text page prop = Ok (strip (concat parts)).
Proof.
  intros Hp. unfold get_prop_rich_text. rewrite Hp. simpl. split.
  - by intros [-> | ->].
  - intros f ty -> Hty. simpl.
    assert (Hne : f <> ∅) by (intros ->; by rewrite lookup_empty in Hty).
    rewrite bool_decide_eq_false_2 by done. simpl. rewrite Hty. simpl. split.
    + by intros -> ->.
    + intros kind -> Hkind.
      assert (Hcase : forall (A : Type) (a b : A),
                 (if eq_str (JStr (lit "title")) (lit "rich_text") then a else b) = b)
        by (intros; reflexivity).
      destruct Hkind as [-> | ->]; [|rewrite Hcase];
        change (eq_str (JStr (lit "rich_text")) (lit "rich_text")) with true;
        change (eq_str (JStr (lit "title")) (lit "title")) with true;
        cbn [bind get getitem];
        (split;
         [intros Hnone; rewrite Hnone; reflexivity
         |intros frags parts Hsome Hfr; rewrite Hsome; unfold plain_text; simpl;
          rewrite (traverse_fragment_text frags parts Hfr); simpl;
          by rewrite join_strs]).
Qed.

(** X2 at the sample record of Apple: its title reads as "Apple". *)
Lemma get_prop_rich_text_spec_witness :
  getitem Demo.apple (lit "properties")
  = Ok (JDict {[ PROP_TITLE := Demo.text "title" ["Apple"];
                 PROP_TICKER := Demo.text "rich_text" ["AAPL"];
                 PROP_SHARES := Demo.number (JInt 10);
                 PROP_AVG_COST := Demo.number (JInt 100);
                 PROP_PRICE := Demo.number (JFloat 105) ]})
  /\ get_prop_rich_text Demo.apple PROP_TITLE = Ok (strip (concat [lit "Apple"])).
Proof.
  assert (Hp : getitem Demo.apple (lit "properties")
               = Ok (JDict {[ PROP_TITLE := Demo.text "title" ["Apple"];
                              PROP_TICKER := Demo.text "rich_text" ["AAPL"];
                              PROP_SHARES := Demo.number (JInt 10);
                              PROP_AVG_COST := Demo.number (JInt 100);
                              PROP_PRICE := Demo.number (JFloat 105) ]}))
    by (vm_compute; reflexivity).
  split; [exact Hp|].
  destruct (get_prop_rich_text_spec Demo.apple _ PROP_TITLE Hp) as [_ Hfield].
  edestruct Hfield as [_ Htext]; [vm_compute; reflexivity..|].
  edestruct (Htext "title"%string) as [_ Hfrags]; [vm_compute; reflexivity|by right|].
  apply (Hfrags [JDict {[ lit "plain_text" := JStr (lit "Apple") ]}]);
    [vm_compute; reflexivity|].
  constructor; [|constructor].
  eexists. split; [reflexivity|]. vm_compute. reflexivity.
Defined.

(** *** Where the accessors do raise *)

(** X3: the accessors are not total on arbitrary objects.  On a page
    without a property bag both raise what the lookup raises; on a field
    that is a non-empty object without a ["type"] both raise [KeyError];
    on a field that is truthy but not an object both raise [TypeError]. *)
Theorem accessors_raise_on_malformed (float_of_str : str -> result float)
    (page : value) (prop : str) :
  (forall e, getitem page (lit "properties") = Raise e ->
     get_prop_number float_of_str page prop = Raise e
     /\ get_prop_rich_text page prop = Raise e)
  /\ (forall props f,
        getitem page (lit "properties") = Ok (JDict props) ->
        props !! prop = Some (JDict f) -> f <> ∅ -> f !! lit "type" = None ->
        get_prop_number float_of_str page prop = Raise KeyError
        /\ get_prop_rich_text page prop = Raise KeyError)
  /\ (forall props p,
        getitem page (lit "properties") = Ok (JDict props) ->
        props !! prop = Some p -> truthy p = true -> (forall f, p <> JDict f) ->
        get_prop_number float_of_str page prop = Raise TypeError
        /\ get_prop_rich_text page prop = Raise TypeError).
Proof.
  unfold get_prop_number, get_prop_rich_text. split; [|split].
  - by intros e ->.
  - intros props f Hbag Hf Hne Hty. rewrite Hbag. simpl. rewrite Hf. simpl.
    rewrite bool_decide_eq_false_2 by done. simpl. by rewrite Hty.
  - intros props p Hbag Hf Ht Hp. rewrite Hbag. simpl. rewrite Hf. simpl.
    rewrite Ht. simpl. destruct p; try done. by destruct (Hp d).
Qed.

(** X3 at a page that is not an object and at a page whose shares field is
    a bare string. *)
Lemma accessors_raise_on_malformed_witness :
  getitem (JList []) (lit "properties") = Raise TypeError
  /\ get_prop_rich_text (JList []) PROP_TICKER = Raise TypeError
  /\ get_prop_number (fun _ => Raise ValueError)
       (JDict {[ lit "properties" := JDict {[ PROP_SHARES := JStr (lit "ten") ]} ]})
       PROP_SHARES = Raise TypeError.
Proof.
  destruct (accessors_raise_on_malformed (fun _ => Raise ValueError)
              (JList []) PROP_TICKER) as (Hbag & _ & _).
  destruct (accessors_raise_on_malformed (fun _ => Raise ValueError)
              (JDict {[ lit "properties" := JDict {[ PROP_SHARES := JStr (lit "ten") ]} ]})
              PROP_SHARES) as (_ & _ & Hfield).
  split; [reflexivity|]. split.
  - exact (proj2 (Hbag TypeError eq_refl)).
  - refine (proj1 (Hfield _ (JStr (lit "ten")) _ _ _ _));
      [vm_compute; reflexivity..|discriminate].
Defined.

(** *** The number normalizer by kind of input *)

(** X4: [safe_num] never returns NaN for an integer, a float or a boolean;
    a boolean counts as 1.0 or 0.0; a string is whatever [float] parses it
    to, NaN included, and absent when it does not parse; null, lists and
    objects are absent. *)
Theorem safe_num_by_kind (float_of_str : str -> result float) :
  (forall x f, is_int_or_float x = true -> safe_num float_of_str x = Some f ->
     PrimFloat.is_nan f = false /\ to_float float_of_str x = Ok f)
  /\ (forall b, safe_num float_of_str (JBool b) = Some (if b then 1%float else 0%float))
  /\ (forall s, safe_num float_of_str (JStr s)
                = match float_of_str s with Ok f => Some f | Raise _ => None end)
  /\ (forall l, safe_num float_of_str (JList l) = None)
  /\ (forall d, safe_num float_of_str (JDict d) = None)
  /\ safe_num float_of_str JNull = None.
Proof.
  split; [|split; [|split; [|split; [|split]]]]; try reflexivity.
  - intros x f Hx. unfold safe_num.
    destruct x; try discriminate; simpl.
    + destruct b; intros [= <-]; by vm_compute.
    + destruct (float_of_int z) as [g|]; simpl; [|done].
      destruct (PrimFloat.is_nan g) eqn:Hg; [done|]. by intros [= <-].
    + destruct (PrimFloat.is_nan f0) eqn:Hg; [done|]. by intros [= <-].
  - by intros [].
  - intros s. unfold safe_num. simpl. by destruct (float_of_str s).
Qed.

(** X4 at the integer 10. *)
Lemma safe_num_by_kind_witness :
  is_int_or_float (JInt 10) = true
  /\ safe_num (fun _ => Raise ValueError) (JInt 10) = Some 10%float
  /\ PrimFloat.is_nan 10 = false.
Proof.
  assert (H1 : is_int_or_float (JInt 10) = true) by reflexivity.
  assert (H2 : safe_num (fun _ => Raise ValueError) (JInt 10) = Some 10%float)
    by (vm_compute; reflexivity).
  split; [exact H1|]. split; [exact H2|].
  exact (proj1 (proj1 (safe_num_by_kind (fun _ => Raise ValueError)) _ _ H1 H2)).
Defined.

(** *** How the resolver uses the provider *)

Section ResolverProtocol.
Context {W : Type} (E : Env W).

(** X5: the resolver asks the provider for the trimmed ticker only: not at
    all when it is blank, otherwise the fast lookup first and the history
    once, and only when the fast lookup gave nothing; it causes nothing but
    these calls and log lines.  A price it returns is the float conversion
    of what one of the two calls gave, with no further check. *)
Theorem fetch_price_protocol (ticker : str) (s : state W) :
  exists price w evs,
    fetch_price E ticker s = (Ok price, after s w evs id)
    /\ forallb is_resolution evs = true
    /\ (strip ticker = [] -> evs = [] /\ price = None /\ w = world s)
    /\ (strip ticker <> [] ->
        (exists rest, evs = FastInfo (strip ticker) :: rest)
        /\ (fetches evs = [strip ticker]
            \/ fetches evs = [strip ticker; strip ticker]
               /\ (fast_last_price E (strip ticker) (world s)).1 = Ok None))
    /\ (forall f, price = Some f ->
        exists v,
          to_float (float_of_str E) v = Ok f
          /\ ((fast_last_price E (strip ticker) (world s)).1 = Ok (Some v)
              \/ (fast_last_price E (strip ticker) (world s)).1 = Ok None
                 /\ (history_last_close E (strip ticker)
                       (fast_last_price E (strip ticker) (world s)).2).1
                    = Ok (Some v))).
Proof.
  destruct (decide (strip ticker = [])) as [Hb|Hb].
  - exists None, (world s), []. unfold fetch_price.
    rewrite bool_decide_eq_true_2 by done. unfold ret.
    rewrite after_nothing. repeat split; done.
  - rewrite (fetch_price_cases E ticker s Hb). simpl.
    destruct (fast_last_price E (strip ticker) (world s)) as [[[v|]|e] w]; simpl.
    + destruct (to_float (float_of_str E) v) as [f|e] eqn:Hv;
        eexists _, w, _; (split; [reflexivity|]); (split; [reflexivity|]);
        (split; [done|]); (split; [intros _; split; [eauto|by left]|]);
        [intros f' [= <-]; eauto|done].
    + destruct (history_last_close E (strip ticker) w) as [[[v|]|e] w']; simpl;
        [destruct (to_float (float_of_str E) v) as [f|e] eqn:Hv| |];
        eexists _, w', _; (split; [reflexivity|]); (split; [reflexivity|]);
        (split; [done|]); (split; [intros _; split; [eauto|by right]|]);
        try done.
      intros f' [= <-]; eauto.
    + eexists _, w, _; (split; [reflexivity|]); (split; [reflexivity|]);
        (split; [done|]); (split; [intros _; split; [eauto|by left]|]); done.
Qed.

(** The events of a resolution, as the loop lemmas need them. *)
Lemma fetch_price_events (ticker : str) (s : state W) :
  exists price w evs,
    fetch_price E ticker s = (Ok price, after s w evs id)
    /\ forallb is_resolution evs = true
    /\ length (fetches evs) <= 2.
Proof.
  destruct (decide (strip ticker = [])) as [Hb|Hb].
  - exists None, (world s), []. unfold fetch_price.
    rewrite bool_decide_eq_true_2 by done. unfold ret.
    rewrite after_nothing. repeat split; simpl; (done || lia).
  - rewrite (fetch_price_cases E ticker s Hb). simpl.
    destruct (fast_last_price E (strip ticker) (world s)) as [[[v|]|e] w];
      [destruct (to_float (float_of_str E) v)
      |destruct (history_last_close E (strip ticker) w) as [[[v|]|e] w'];
       [destruct (to_float (float_of_str E) v)| |]
      |];
      eexists _, _, _; (split; [reflexivity|]); split; simpl; (done || lia).
Qed.
End ResolverProtocol.

(** X5 at the sample provider, asked for a padded unknown symbol: both
    calls are made, for the trimmed symbol, and no price comes back. *)
Lemma fetch_price_protocol_witness :
  strip (lit " ZZZZ ") <> []
  /\ fetch_price Demo.env (lit " ZZZZ ") Demo.start
     = (Ok None, after Demo.start 2 [FastInfo (lit "ZZZZ"); History (lit "ZZZZ")] id).
Proof.
  assert (Hne : strip (lit " ZZZZ ") <> []) by (vm_compute; discriminate).
  split; [exact Hne|].
  destruct (fetch_price_protocol Demo.env (lit " ZZZZ ") Demo.start)
    as (price & w & evs & Hf & _ & _ & Hcalls & _).
  destruct (Hcalls Hne) as [[rest Hevs] _].
  rewrite Hf. apply (f_equal fst) in Hf as Hp. apply (f_equal snd) in Hf.
  vm_compute in Hp. vm_compute in Hf. injection Hp as <-.
  unfold after in Hf. simpl in Hf. injection Hf as <- <-.
  vm_compute. reflexivity.
Defined.

(** *** What the loop body can cause, on any page *)

Section BodyEvents.
Context {W : Type} (E : Env W) (c : config).

Lemma same_state (s : state W) :
  s = {| world := world s; trace := trace s ++ []; tally := tally s |}.
Proof. destruct s. simpl. by rewrite app_nil_r. Qed.

Lemma resolution_no_query (evs : list event) :
  forallb is_resolution evs = true ->
  forallb (fun e => negb (is_query e)) evs = true /\ updates evs = [].
Proof.
  induction evs as [|e evs IH]; [done|]. simpl.
  intros [He Hevs]%andb_prop. destruct (IH Hevs) as [-> Hu].
  by destruct e.
Qed.

Lemma fetches_app (a b : list event) : fetches (a ++ b) = fetches a ++ fetches b.
Proof. apply omap_app. Qed.

(** On any page at all, the loop body causes no query, at most two
    provider calls and at most one update, which is for the id of the
    page; and it counts an update only if it issued one. *)
Lemma process_page_events (page : value) (s : state W) :
  exists r w evs n,
    process_page E c page s = (r, {| world := w; trace := trace s ++ evs; tally := n |})
    /\ forallb (fun e => negb (is_query e)) evs = true
    /\ length (fetches evs) <= 2
    /\ (updates evs = []
        \/ exists pid props,
             getitem page (lit "id") = Ok pid /\ updates evs = [(pid, props)])
    /\ updated n <= updated (tally s) + length (updates evs)
    /\ updated (tally s) <= updated n.
Proof.
  unfold process_page, io_bind, lift, modify_tally.
  destruct (getitem page (lit "id")) as [pid|e] eqn:Hid; simpl;
    [|exists (Raise e), (world s), [], (tally s); rewrite <- same_state;
      repeat split; simpl; (done || lia || by left)].
  destruct (get_prop_rich_text page PROP_TICKER) as [ticker|e]; simpl;
    [|exists (Raise e), (world s), [], (tally s); rewrite <- same_state;
      repeat split; simpl; (done || lia || by left)].
  destruct (bool_decide (ticker = [])); simpl;
    [eexists (Ok tt), (world s), [], _; rewrite app_nil_r;
     repeat split; simpl; (done || lia || by left)|].
  destruct (get_prop_number _ page PROP_SHARES) as [shares|e]; simpl;
    [|exists (Raise e), (world s), [], (tally s); rewrite <- same_state;
      repeat split; simpl; (done || lia || by left)].
  destruct (get_prop_number _ page PROP_AVG_COST) as [avg_cost|e]; simpl;
    [|exists (Raise e), (world s), [], (tally s); rewrite <- same_state;
      repeat split; simpl; (done || lia || by left)].
  destruct (get_prop_number _ page PROP_PRICE) as [existing|e]; simpl;
    [|exists (Raise e), (world s), [], (tally s); rewrite <- same_state;
      repeat split; simpl; (done || lia || by left)].
  destruct (UPDATE_ONLY_MISSING c && bool_decide (existing <> None)); simpl;
    [eexists (Ok tt), (world s), [], _; rewrite app_nil_r;
     repeat split; simpl; (done || lia || by left)|].
  destruct (fetch_price_events E ticker s) as (price & w & fevs & -> & Hres & Hlen).
  destruct (resolution_no_query fevs Hres) as [Hnq Hnu].
  unfold after. simpl. destruct price as [price|]; simpl.
  - match goal with |- context [write_back E ?pg ?id ?t ?sh ?av ?pr ?st] =>
      rewrite (write_back_cases E pg id t sh av pr st) end.
    simpl. destruct (utcnow_isoformat E w) as [iso w0].
    destruct (pages_update E pid _ w0) as [[[]|e] w'];
      [destruct (get_prop_rich_text page PROP_TITLE) as [title|e]| ];
      unfold after; simpl; rewrite <- app_assoc;
      eexists (Ok tt), w', _, _; (split; [reflexivity|]);
      rewrite forallb_app, fetches_app, updates_app, Hnq, Hnu, !length_app;
      simpl; repeat split; try lia; right; eauto.
  - unfold emit. simpl. rewrite <- app_assoc.
    eexists (Ok tt), w, _, _; (split; [reflexivity|]).
    rewrite forallb_app, fetches_app, updates_app, Hnq, Hnu, !length_app.
    simpl. repeat split; try lia; by left.
Qed.
End BodyEvents.

Section LoopEvents.
Context {W : Type} (E : Env W) (c : config).

Lemma for_pages_app (pre post : list value) (s : state W) :
  for_pages E c (pre ++ post) s
  = io_bind (for_pages E c pre) (fun _ => for_pages E c post) s.
Proof.
  revert s. induction pre as [|page pre IH]; intros s; simpl; [done|].
  unfold io_bind.
  destruct (process_page E c page s) as [[[]|e] s1]; [|done].
  rewrite IH. reflexivity.
Qed.

(** The loop over any list of pages: no query, at most two provider calls
    a page, and the updates go, in order, to ids of the pages. *)
Lemma for_pages_events (pages : list value) (s : state W) :
  exists r w evs n,
    for_pages E c pages s = (r, {| world := w; trace := trace s ++ evs; tally := n |})
    /\ forallb (fun e => negb (is_query e)) evs = true
    /\ length (fetches evs) <= 2 * length pages
    /\ sublist (updates evs).*1 (ids pages)
    /\ length (updates evs) <= length pages
    /\ updated n <= updated (tally s) + length (updates evs)
    /\ updated (tally s) <= updated n.
Proof.
  revert s. induction pages as [|page pages IH]; intros s.
  - exists (Ok tt), (world s), [], (tally s). simpl. rewrite <- same_state.
    repeat split; simpl; (done || lia).
  - destruct (process_page_events E c page s)
      as (r1 & w1 & evs1 & n1 & Hp & Hq1 & Hf1 & Hu1 & Hn1 & Hm1).
    assert (Hsub1 : forall l, sublist l (ids pages) ->
                              sublist ((updates evs1).*1 ++ l) (ids (page :: pages))
                              /\ length (updates evs1) <= 1).
    { intros l Hl. unfold ids. simpl. fold (ids pages).
      destruct Hu1 as [-> | (pid & props & -> & ->)]; simpl.
      - split; [|lia]. destruct (getitem page (lit "id")); [by apply sublist_cons|done].
      - split; [by apply sublist_skip|lia]. }
    simpl. unfold io_bind. rewrite Hp. destruct r1 as [[]|e].
    + destruct (IH {| world := w1; trace := trace s ++ evs1; tally := n1 |})
        as (r & w & evs & n & -> & Hq & Hf & Hsub & Hlen & Hn & Hm).
      simpl in *. destruct (Hsub1 _ Hsub) as [Hs Hl1].
      exists r, w, (evs1 ++ evs), n. rewrite app_assoc.
      split; [reflexivity|].
      rewrite forallb_app, fetches_app, updates_app, fmap_app, Hq1, Hq, !length_app.
      repeat split; try done; lia.
    + destruct (Hsub1 [] (sublist_nil_l _)) as [Hs Hl1]. rewrite app_nil_r in Hs.
      exists (Raise e), w1, evs1, n1. split; [reflexivity|].
      repeat split; try done; simpl; lia.
Qed.

Lemma query_loop_events (fuel : nat) (database_id : str) (acc : list value)
    (cursor : value) (s : state W) :
  exists r w qs,
    query_loop E fuel database_id acc cursor s = (r, after s w qs id)
    /\ forallb is_query qs = true
    /\ length qs <= fuel
    /\ (r = Ok None -> length qs = fuel).
Proof.
  revert acc cursor s. induction fuel as [|fuel IH]; intros acc cursor s.
  - exists (Ok None), (world s), []. simpl. unfold ret. rewrite after_nothing.
    repeat split; simpl; (done || lia).
  - simpl. unfold io_bind at 1.
    assert (Hcall : exists r w q,
               (if truthy cursor
                then call (Query database_id (Some cursor))
                       (databases_query E database_id (Some cursor))
                else call (Query database_id None)
                       (databases_query E database_id None)) s
               = (r, after s w [Query database_id q] id)).
    { unfold call, after. destruct (truthy cursor);
        [destruct (databases_query E database_id (Some cursor) (world s)) as [r w]
        |destruct (databases_query E database_id None (world s)) as [r w]];
        by eexists r, w, _. }
    destruct Hcall as (r0 & w0 & q & ->).
    assert (Hstop : forall r : result (option (list value)),
               (forall x, r <> Ok x) ->
               exists r' w qs,
                 (r, after s w0 [Query database_id q] id) = (r', after s w qs id)
                 /\ forallb is_query qs = true /\ length qs <= S fuel
                 /\ (r' = Ok None -> length qs = S fuel)).
    { intros r Hr. exists r, w0, [Query database_id q].
      repeat split; simpl; try (done || lia). intros ->. by destruct (Hr None). }
    destruct r0 as [resp|e]; [|by apply Hstop].
    unfold io_bind, lift. simpl.
    destruct (get resp (lit "results") (JList [])) as [results|e]; [|by apply Hstop].
    simpl. destruct (iter results) as [items|e]; [|by apply Hstop].
    simpl. destruct (get resp (lit "has_more") JNull) as [has_more|e];
      [|by apply Hstop].
    simpl. destruct (truthy has_more); simpl.
    + destruct (get resp (lit "next_cursor") JNull) as [next|e]; [|by apply Hstop].
      simpl.
      destruct (IH (acc ++ items) next (after s w0 [Query database_id q] id))
        as (r & w & qs & -> & Hq & Hlen & Hnone).
      exists r, w, (Query database_id q :: qs). unfold after. simpl.
      rewrite <- app_assoc. simpl. split; [reflexivity|].
      repeat split; try done; [lia|]. intros Hr. by rewrite (Hnone Hr).
    + exists (Ok (Some (acc ++ items))), w0, [Query database_id q]. unfold ret.
      repeat split; simpl; (done || lia).
Qed.
End LoopEvents.

(** *** Failures of the store on a write *)

(** X6: when the store rejects the update of a record, the exception is
    caught in the loop body: the update was attempted once, a line naming
    the ticker and the error is printed, the record is counted as failed
    and not as updated, and the loop goes on with the next record. *)
Theorem write_failure_is_contained {W : Type} (E : Env W) (c : config)
    (page pid : value) (ticker : str) (shares avg_cost existing : option float)
    (price : float) (s s1 : state W) (iso : str) (w w' : W) (e : exn)
    (rest : list value) :
  reads E page pid ticker shares avg_cost existing ->
  ticker <> [] ->
  UPDATE_ONLY_MISSING c = false \/ existing = None ->
  fetch_price E ticker s = (Ok (Some price), s1) ->
  utcnow_isoformat E (world s1) = (iso, w) ->
  pages_update E pid
    (output_properties (Some price)
       (compute_metrics shares avg_cost (Some price)).1
       (compute_metrics shares avg_cost (Some price)).2 iso) w
  = (Raise e, w') ->
  let props := output_properties (Some price)
                 (compute_metrics shares avg_cost (Some price)).1
                 (compute_metrics shares avg_cost (Some price)).2 iso in
  let s' := after s1 w' [Update pid props; Print (NotionError ticker e)] incr_failed in
  process_page E c page s = (Ok tt, s')
  /\ for_pages E c (page :: rest) s = for_pages E c rest s'.
Proof.
  intros Hr Hne Hmode Hf Hclock Hstore props s'.
  assert (Hp : process_page E c page s = (Ok tt, s')).
  { rewrite (process_page_fetch E c _ _ _ _ _ _ s Hr Hne Hmode), Hf.
    rewrite write_back_cases, Hclock. cbv zeta. by rewrite Hstore. }
  split; [exact Hp|]. simpl. unfold io_bind at 1. by rewrite Hp.
Qed.

(** X6 at the sample record of Apple against the store that rejects every
    update: nothing is counted as updated, one record as failed. *)
Lemma write_failure_is_contained_witness :
  reads Demo.stubborn Demo.apple (JStr (lit "p1")) (lit "AAPL")
    (Some 10%float) (Some 100%float) (Some 105%float)
  /\ tally (process_page Demo.stubborn (Demo.settings 1 false) Demo.apple Demo.start).2
     = {| updated := 0; skipped := 0; failed := 1 |}.
Proof.
  assert (Hr : reads Demo.stubborn Demo.apple (JStr (lit "p1")) (lit "AAPL")
                 (Some 10%float) (Some 100%float) (Some 105%float))
    by (repeat split; vm_compute; reflexivity).
  split; [exact Hr|].
  rewrite (proj1 (write_failure_is_contained Demo.stubborn (Demo.settings 1 false)
                    Demo.apple _ _ _ _ _ 110%float Demo.start
                    (after Demo.start 1 [FastInfo (lit "AAPL")] id)
                    (lit "2024-01-01T00:00:00+00:00") 1 2 (External "conflict") []
                    Hr ltac:(discriminate) (or_introl eq_refl)
                    ltac:(vm_compute; reflexivity) eq_refl eq_refl)).
  reflexivity.
Defined.

(** X7: when the store accepts the update but the title of the record
    cannot be read afterwards, the same [except] clause runs after the
    record has been counted as updated: the record is counted twice, once
    as updated and once as failed. *)
Theorem unreadable_title_counts_twice {W : Type} (E : Env W) (c : config)
    (page pid : value) (ticker : str) (shares avg_cost existing : option float)
    (price : float) (s s1 : state W) (iso : str) (w w' : W) (e : exn) :
  reads E page pid ticker shares avg_cost existing ->
  ticker <> [] ->
  UPDATE_ONLY_MISSING c = false \/ existing = None ->
  fetch_price E ticker s = (Ok (Some price), s1) ->
  utcnow_isoformat E (world s1) = (iso, w) ->
  pages_update E pid
    (output_properties (Some price)
       (compute_metrics shares avg_cost (Some price)).1
       (compute_metrics shares avg_cost (Some price)).2 iso) w
  = (Ok tt, w') ->
  get_prop_rich_text page PROP_TITLE = Raise e ->
  exists s',
    process_page E c page s = (Ok tt, s')
    /\ tally s' = incr_failed (incr_updated (tally s))
    /\ total (tally s') = total (tally s) + 2
    /\ length (updates (trace s')) = S (length (updates (trace s))).
Proof.
  intros Hr Hne Hmode Hf Hclock Hstore Htitle.
  destruct (fetch_price_returns E ticker s) as (p & w1 & evs & Hf' & Hu & _).
  rewrite Hf in Hf'. injection Hf' as _ ->.
  eexists. split.
  { rewrite (process_page_fetch E c _ _ _ _ _ _ s Hr Hne Hmode), Hf.
    rewrite write_back_cases, Hclock. cbv zeta. rewrite Hstore, Htitle. reflexivity. }
  simpl. split; [reflexivity|]. split; [unfold total; simpl; lia|].
  rewrite !updates_app, Hu, !length_app. simpl. lia.
Qed.

(** X7 at the sample record whose title holds null: one update is sent
    and accepted, and both counters go up. *)
Lemma unreadable_title_counts_twice_witness :
  reads Demo.env Demo.odd_title (JStr (lit "p5")) (lit "AAPL") (Some 2%float) None None
  /\ get_prop_rich_text Demo.odd_title PROP_TITLE = Raise TypeError
  /\ tally (process_page Demo.env (Demo.settings 1 false) Demo.odd_title Demo.start).2
     = {| updated := 1; skipped := 0; failed := 1 |}.
Proof.
  assert (Hr : reads Demo.env Demo.odd_title (JStr (lit "p5")) (lit "AAPL")
                 (Some 2%float) None None)
    by (repeat split; vm_compute; reflexivity).
  assert (Ht : get_prop_rich_text Demo.odd_title PROP_TITLE = Raise TypeError)
    by (vm_compute; reflexivity).
  split; [exact Hr|]. split; [exact Ht|].
  destruct (unreadable_title_counts_twice Demo.env (Demo.settings 1 false)
              Demo.odd_title _ _ _ _ _ 110%float Demo.start
              (after Demo.start 1 [FastInfo (lit "AAPL")] id)
              (lit "2024-01-01T00:00:00+00:00") 1 2 TypeError
              Hr ltac:(discriminate) (or_introl eq_refl)
              ltac:(vm_compute; reflexivity) eq_refl eq_refl Ht)
    as (s' & Hp & Htally & _).
  rewrite Hp. simpl. rewrite Htally. reflexivity.
Defined.

(** *** Records the loop cannot read *)

(** X8: an exception from the reads at the top of the loop body is not
    caught.  When a page has no id, or its ticker cannot be read, the loop
    ends there with that exception, after the records before it and before
    any of the pages after it: what follows the page plays no part. *)
Theorem unreadable_record_stops_loop {W : Type} (E : Env W) (c : config)
    (pre : list value) (page : value) (e : exn) (s : state W) :
  Forall (fun p => is_record p = true) pre ->
  getitem page (lit "id") = Raise e
  \/ (exists pid, getitem page (lit "id") = Ok pid)
     /\ get_prop_rich_text page PROP_TICKER = Raise e ->
  exists s1,
    for_pages E c pre s = (Ok tt, s1)
    /\ total (tally s1) = total (tally s) + length pre
    /\ forall rest, for_pages E c (pre ++ page :: rest) s = (Raise e, s1).
Proof.
  intros Hpre Hbad.
  destruct (for_pages_counts E c pre s Hpre) as (s1 & Hfor & Htotal).
  exists s1. split; [exact Hfor|]. split; [exact Htotal|].
  intros rest. rewrite for_pages_app. unfold io_bind at 1. rewrite Hfor.
  simpl. unfold io_bind at 1.
  assert (process_page E c page s1 = (Raise e, s1)) as ->; [|done].
  unfold process_page, io_bind, lift.
  destruct Hbad as [-> | [[pid ->] ->]]; done.
Qed.

(** X8 at the sample record of Apple followed by the record without an
    id and one more record: the loop ends with [KeyError] after Apple. *)
Lemma unreadable_record_stops_loop_witness :
  Forall (fun p => is_record p = true) [Demo.apple]
  /\ getitem Demo.no_id (lit "id") = Raise KeyError
  /\ exists s1,
       for_pages Demo.env (Demo.settings 1 false)
         [Demo.apple; Demo.no_id; Demo.msft] Demo.start = (Raise KeyError, s1)
       /\ total (tally s1) = 1.
Proof.
  assert (Hpre : Forall (fun p => is_record p = true) [Demo.apple])
    by (repeat constructor; vm_compute; reflexivity).
  assert (Hid : getitem Demo.no_id (lit "id") = Raise KeyError)
    by (vm_compute; reflexivity).
  split; [exact Hpre|]. split; [exact Hid|].
  destruct (unreadable_record_stops_loop Demo.env (Demo.settings 1 false)
              [Demo.apple] Demo.no_id KeyError Demo.start Hpre (or_introl Hid))
    as (s1 & _ & Htotal & Hstop).
  exists s1. split; [exact (Hstop [Demo.msft])|exact Htotal].
Defined.

(** *** The page collection when the store does not cooperate *)

(** X9: an exception from a query is not caught.  Whenever the page
    collection raises, [main] ends with that exception and a non-zero exit
    status; up to then nothing but queries has happened: no provider call,
    no update, no counter touched. *)
Theorem query_failure_aborts_run {W : Type} (E : Env W) (c : config)
    (fuel : nat) (db : str) (s s1 : state W) (e : exn) :
  unset (NOTION_TOKEN c) = false ->
  DATABASE_ID c = Some db ->
  db <> [] ->
  query_all_pages E fuel db s = (Raise e, s1) ->
  main E c fuel s = (Some (Uncaught e), s1)
  /\ exit_status (Uncaught e) <> 0%Z
  /\ (exists qs, trace s1 = trace s ++ qs /\ forallb is_query qs = true)
  /\ fetches (trace s1) = fetches (trace s)
  /\ updates (trace s1) = updates (trace s)
  /\ tally s1 = tally s.
Proof.
  intros Htoken Hdb Hne Hq.
  split.
  { unfold main, require_env. rewrite Htoken, Hdb. simpl.
    rewrite (bool_decide_eq_false_2 (db = [])) by done. simpl.
    unfold run, io_bind. by rewrite Hq. }
  split; [done|].
  destruct (query_loop_events E fuel db [] JNull s) as (r & w & qs & Hq' & Hall & _).
  unfold query_all_pages in Hq. rewrite Hq in Hq'. injection Hq' as _ ->.
  assert (Hnone : fetches qs = [] /\ updates qs = []).
  { clear -Hall. induction qs as [|q qs IH]; [done|]. simpl in Hall.
    apply andb_prop in Hall as [Hq Hqs]. destruct (IH Hqs) as [Hf Hu].
    destruct q; try discriminate. simpl. by rewrite Hf, Hu. }
  destruct Hnone as [Hf Hu]. unfold after. simpl.
  split; [by exists qs|].
  rewrite fetches_app, updates_app, Hf, Hu, !app_nil_r. done.
Qed.

(** X9 at the sample store whose first query fails. *)
Lemma query_failure_aborts_run_witness :
  query_all_pages Demo.offline 5 (lit "db") Demo.start
  = (Raise (External "unreachable"), after Demo.start 1 [Query (lit "db") None] id)
  /\ main Demo.offline (Demo.settings 1 false) 5 Demo.start
     = (Some (Uncaught (External "unreachable")),
        after Demo.start 1 [Query (lit "db") None] id).
Proof.
  assert (Hq : query_all_pages Demo.offline 5 (lit "db") Demo.start
               = (Raise (External "unreachable"),
                  after Demo.start 1 [Query (lit "db") None] id))
    by (vm_compute; reflexivity).
  split; [exact Hq|].
  exact (proj1 (query_failure_aborts_run Demo.offline (Demo.settings 1 false) 5
                  (lit "db") Demo.start _ _ eq_refl eq_refl ltac:(discriminate) Hq)).
Defined.

(** X10: the page collection has no bound of its own.  Against a store
    that answers every query with a page and a true has-more flag it never
    returns: however many iterations it is allowed, it uses them all, one
    query each, and is still not done. *)
Theorem endless_store_never_drains {W : Type} (E : Env W) (db : str) :
  (forall cur w, exists d items w',
      databases_query E db cur w = (Ok (JDict d), w')
      /\ default (JList []) (d !! lit "results") = JList items
      /\ truthy (default JNull (d !! lit "has_more")) = true) ->
  forall fuel s,
    exists w qs,
      query_all_pages E fuel db s = (Ok None, after s w qs id)
      /\ length qs = fuel
      /\ forallb is_query qs = true.
Proof.
  intros Hstore fuel. unfold query_all_pages.
  generalize (@nil value) as acc. generalize JNull as cursor.
  induction fuel as [|fuel IH]; intros cursor acc s.
  - exists (world s), []. simpl. unfold ret. by rewrite after_nothing.
  - simpl. unfold io_bind at 1.
    assert (Hcall : exists d items w0 q,
               (if truthy cursor
                then call (Query db (Some cursor)) (databases_query E db (Some cursor))
                else call (Query db None) (databases_query E db None)) s
               = (Ok (JDict d), after s w0 [Query db q] id)
               /\ default (JList []) (d !! lit "results") = JList items
               /\ truthy (default JNull (d !! lit "has_more")) = true).
    { unfold call, after. destruct (truthy cursor);
        [destruct (Hstore (Some cursor) (world s)) as (d & items & w0 & -> & Hr & Hm)
        |destruct (Hstore None (world s)) as (d & items & w0 & -> & Hr & Hm)];
        by eexists d, items, w0, _. }
    destruct Hcall as (d & items & w0 & q & -> & Hr & Hm).
    unfold io_bind, lift. simpl. rewrite Hr. simpl. rewrite Hm. simpl.
    destruct (IH (default JNull (d !! lit "next_cursor")) (acc ++ items)
                (after s w0 [Query db q] id)) as (w & qs & -> & Hlen & Hall).
    exists w, (Query db q :: qs). unfold after. simpl. rewrite <- app_assoc.
    simpl. by rewrite Hlen.
Qed.

(** X10 at the sample store that always reports more. *)
Lemma endless_store_never_drains_witness :
  (query_all_pages Demo.stubborn 7 (lit "db") Demo.start).1 = Ok None
  /\ world (query_all_pages Demo.stubborn 7 (lit "db") Demo.start).2 = 7.
Proof.
  destruct (endless_store_never_drains Demo.stubborn (lit "db")) with
    (fuel := 7) (s := Demo.start) as (w & qs & Hq & _).
  { intros cur w. eexists. exists [Demo.apple], (S w).
    split; [reflexivity|]. split; vm_compute; reflexivity. }
  rewrite Hq. simpl. split; [reflexivity|].
  apply (f_equal (fun r => world r.2)) in Hq. vm_compute in Hq. by rewrite Hq.
Defined.

(** X11: a response without a has-more flag is the last one, and a
    response without a result list contributes no record: the collection
    then ends after this one query, which carries no start cursor when it
    is the first. *)
Theorem response_defaults {W : Type} (E : Env W) (db : str) (s : state W)
    (d : gmap str value) (w' : W) (fuel : nat) :
  databases_query E db None (world s) = (Ok (JDict d), w') ->
  d !! lit "has_more" = None ->
  (d !! lit "results" = None ->
   query_all_pages E (S fuel) db s = (Ok (Some []), after s w' [Query db None] id))
  /\ (forall items, d !! lit "results" = Some (JList items) ->
      query_all_pages E (S fuel) db s
      = (Ok (Some items), after s w' [Query db None] id)).
Proof.
  intros Hq Hmore. unfold query_all_pages. simpl.
  unfold io_bind, call, lift, ret, after. rewrite Hq. simpl. rewrite Hmore.
  split; [intros ->|intros items ->]; done.
Qed.

(** X11 at a store that answers with an empty object. *)
Lemma response_defaults_witness :
  query_all_pages
    {| float_of_str := fun _ => Raise ValueError;
       databases_query := fun _ _ w => (Ok (JDict ∅), S w);
       fast_last_price := fast_last_price Demo.env;
       history_last_close := history_last_close Demo.env;
       pages_update := pages_update Demo.env;
       utcnow_isoformat := utcnow_isoformat Demo.env |}
    3 (lit "db") Demo.start
  = (Ok (Some []), after Demo.start 1 [Query (lit "db") None] id).
Proof.
  refine (proj1 (response_defaults _ (lit "db") Demo.start ∅ 1 2 _ _) _);
    reflexivity.
Defined.

(** *** The order and the targets of what a run does *)

Section RunEvents.
Context {W : Type} (E : Env W) (c : config).

(** What the part of [main] after the collection causes, on any pages. *)
Lemma reconcile_events (pages : list value) (s : state W) :
  exists r w evs n,
    reconcile E c pages s = (r, {| world := w; trace := trace s ++ evs; tally := n |})
    /\ forallb (fun e => negb (is_query e)) evs = true
    /\ length (fetches evs) <= 2 * length pages
    /\ sublist (updates evs).*1 (ids pages)
    /\ length (updates evs) <= length pages
    /\ updated n <= length (updates evs).
Proof.
  unfold reconcile, io_bind, emit, modify_tally, get_tally. simpl.
  destruct (for_pages_events E c pages
              {| world := world s;
                 trace := trace s ++ [Print (InfoPages (length pages))];
                 tally := {| updated := 0; skipped := 0; failed := 0 |} |})
    as (r & w & evs & n & -> & Hq & Hf & Hsub & Hlen & Hn & _).
  simpl in *. destruct r as [[]|e]; rewrite <- !app_assoc.
  - eexists (Ok tt), w, _, n. split; [reflexivity|].
    rewrite !forallb_app, !fetches_app, !updates_app, Hq. simpl.
    rewrite !app_nil_r. repeat split; try done; lia.
  - eexists (Raise e), w, _, n. split; [reflexivity|].
    rewrite !forallb_app, !fetches_app, !updates_app, Hq. simpl.
    repeat split; try done; lia.
Qed.
End RunEvents.

(** X12: in every run the page collection is over before the first
    record is looked at: what [main] causes is a run of queries, at most as
    many as iterations allowed, followed by events none of which is a
    query. *)
Theorem collection_precedes_processing {W : Type} (E : Env W) (c : config)
    (fuel : nat) (s : state W) :
  exists qs body,
    trace (main E c fuel s).2 = trace s ++ qs ++ body
    /\ forallb is_query qs = true
    /\ length qs <= fuel
    /\ forallb (fun e => negb (is_query e)) body = true.
Proof.
  unfold main. destruct (negb (bool_decide (require_env c = []))).
  { exists [], []. simpl. rewrite app_nil_r. repeat split; (done || lia). }
  unfold run, io_bind, query_all_pages.
  destruct (query_loop_events E fuel (default [] (DATABASE_ID c)) [] JNull s)
    as (r & w & qs & -> & Hqs & Hlen & _).
  destruct r as [[pages|]|e];
    try (exists qs, []; simpl; rewrite app_nil_r; repeat split; done).
  destruct (reconcile_events E c pages (after s w qs id))
    as (r & w1 & evs & n & -> & Hbody & _).
  exists qs, evs. destruct r as [[]|e]; simpl; rewrite <- app_assoc; done.
Qed.

(** X13: the loop writes to the records it was given and to nothing else:
    whatever the pages are and however the run goes, the updates it issues
    are for ids of these pages, in the order of the pages, at most one a
    page. *)
Theorem loop_updates_own_records {W : Type} (E : Env W) (c : config)
    (pages : list value) (s : state W) :
  exists evs,
    trace (reconcile E c pages s).2 = trace s ++ evs
    /\ sublist (updates evs).*1 (ids pages)
    /\ length (updates evs) <= length pages.
Proof.
  destruct (reconcile_events E c pages s)
    as (r & w & evs & n & -> & _ & _ & Hsub & Hlen & _).
  by exists evs.
Qed.

(** X14: a run makes at most two provider calls a record, and the updated
    counter it ends with never exceeds the number of updates it issued. *)
Theorem loop_effort_bounds {W : Type} (E : Env W) (c : config)
    (pages : list value) (s : state W) :
  exists evs,
    trace (reconcile E c pages s).2 = trace s ++ evs
    /\ length (fetches evs) <= 2 * length pages
    /\ updated (tally (reconcile E c pages s).2) <= length (updates evs).
Proof.
  destruct (reconcile_events E c pages s)
    as (r & w & evs & n & -> & _ & Hf & _ & _ & Hn).
  by exists evs.
Qed.

(** *** What a write carries *)

Lemma notion_number_null (v : option float) :
  notion_number v = notion_number None <-> v = None.
Proof.
  split; [|by intros ->]. destruct v as [f|]; [|done]. intros H.
  apply (f_equal (fun x => match x with
                           | JDict d => d !! lit "number"
                           | _ => None
                           end)) in H.
  unfold notion_number in H. by rewrite !lookup_singleton_eq in H.
Qed.

(** X15: in the update of a record that reaches the write step, the price
    is never null; the value is null exactly when the record has no
    shares; the percentage is null exactly when the record has no shares,
    or no average cost, or an average cost that compares equal to zero; and
    the timestamp is the clock read after the price was resolved. *)
Theorem written_fields_presence {W : Type} (E : Env W) (c : config)
    (page pid : value) (ticker : str) (shares avg_cost existing : option float)
    (price : float) (s s1 : state W) :
  reads E page pid ticker shares avg_cost existing ->
  ticker <> [] ->
  UPDATE_ONLY_MISSING c = false \/ existing = None ->
  fetch_price E ticker s = (Ok (Some price), s1) ->
  exists props,
    updates (trace (process_page E c page s).2) = updates (trace s1) ++ [(pid, props)]
    /\ props !! PROP_PRICE = Some (notion_number (Some price))
    /\ (props !! PROP_VALUE = Some (notion_number None) <-> shares = None)
    /\ (props !! PROP_PL_PCT = Some (notion_number None)
        <-> shares = None \/ avg_cost = None
            \/ exists a, avg_cost = Some a /\ PrimFloat.eqb a 0 = true)
    /\ props !! PROP_LAST_UPDATED
       = Some (notion_date (utcnow_isoformat E (world s1)).1).
Proof.
  intros Hr Hne Hmode Hf.
  rewrite (process_page_fetch E c _ _ _ _ _ _ s Hr Hne Hmode), Hf.
  rewrite write_back_cases.
  destruct (utcnow_isoformat E (world s1)) as [iso w]. cbv zeta.
  set (props := output_properties _ _ _ iso).
  exists props. split.
  { destruct (pages_update E pid props w) as [[[]|e] w'];
      [destruct (get_prop_rich_text page PROP_TITLE)|];
      unfold after; simpl; by rewrite updates_app. }
  assert (Hprice : props !! PROP_PRICE = Some (notion_number (Some price)))
    by (subst props; by rewrite output_properties_lookup).
  assert (Hvalue : props !! PROP_VALUE
                   = Some (notion_number (compute_metrics shares avg_cost (Some price)).1))
    by (subst props; by rewrite output_properties_lookup).
  assert (Hpct : props !! PROP_PL_PCT
                 = Some (notion_number (compute_metrics shares avg_cost (Some price)).2))
    by (subst props; by rewrite output_properties_lookup).
  assert (Hstamp : props !! PROP_LAST_UPDATED = Some (notion_date iso))
    by (subst props; by rewrite output_properties_lookup).
  rewrite Hprice, Hvalue, Hpct, Hstamp. clearbody props.
  split; [done|]. split; [|split; [|done]].
  - split.
    + intros H. assert (H' := proj1 (notion_number_null _) (Some_inj _ _ H)).
      by destruct shares.
    + by intros ->.
  - split.
    + intros H. assert (H' := proj1 (notion_number_null _) (Some_inj _ _ H)).
      destruct shares as [sh|]; [|by left]. right.
      destruct avg_cost as [a|]; [|by left]. right. exists a. split; [done|].
      simpl in H'. by destruct (PrimFloat.eqb a 0).
    + intros [-> | [-> | (a & -> & Ha)]];
        [done|by destruct shares|destruct shares; simpl; by rewrite ?Ha].
Qed.

(** X15 at the sample record of Apple, which has ten shares: the value
    written is not null. *)
Lemma written_fields_presence_witness :
  reads Demo.env Demo.apple (JStr (lit "p1")) (lit "AAPL")
    (Some 10%float) (Some 100%float) (Some 105%float)
  /\ written_field PROP_VALUE
       (trace (process_page Demo.env (Demo.settings 1 false) Demo.apple Demo.start).2)
     <> [Some (notion_number None)].
Proof.
  assert (Hr : reads Demo.env Demo.apple (JStr (lit "p1")) (lit "AAPL")
                 (Some 10%float) (Some 100%float) (Some 105%float))
    by (repeat split; vm_compute; reflexivity).
  split; [exact Hr|].
  destruct (written_fields_presence Demo.env (Demo.settings 1 false)
              Demo.apple _ _ _ _ _ 110%float Demo.start
              (after Demo.start 1 [FastInfo (lit "AAPL")] id)
              Hr ltac:(discriminate) (or_introl eq_refl)
              ltac:(vm_compute; reflexivity))
    as (props & Hu & _ & Hvalue & _).
  unfold written_field. rewrite Hu. simpl. intros H.
  assert (Hnull : props !! PROP_VALUE = Some (notion_number None)) by congruence.
  apply Hvalue in Hnull. discriminate Hnull.
Defined.

(** *** Records without a price, and the ticker the provider sees *)

(** X16: for a record whose price field reads as absent the configuration
    plays no part in the loop body: missing-only mode, scaling factor and
    currency label make no difference to what is done. *)
Theorem absent_price_ignores_settings {W : Type} (E : Env W) (c c' : config)
    (page pid : value) (ticker : str) (shares avg_cost : option float)
    (s : state W) :
  reads E page pid ticker shares avg_cost None ->
  process_page E c page s = process_page E c' page s.
Proof.
  intros Hr. destruct (decide (ticker = [])) as [->|Hne].
  - destruct Hr as (Hid & Ht & _).
    by rewrite !(process_page_no_ticker E _ page pid s Hid Ht).
  - by rewrite !(process_page_fetch E _ _ _ _ _ _ _ s Hr Hne (or_intror eq_refl)).
Qed.

(** X16 at the sample record of Microsoft, which has no price yet. *)
Lemma absent_price_ignores_settings_witness :
  reads Demo.env Demo.msft (JStr (lit "p3")) (lit "MSFT")
    (Some 3%float) (Some 250%float) None
  /\ process_page Demo.env (Demo.settings 1 true) Demo.msft Demo.start
     = process_page Demo.env (Demo.settings 2 false) Demo.msft Demo.start.
Proof.
  assert (Hr : reads Demo.env Demo.msft (JStr (lit "p3")) (lit "MSFT")
                 (Some 3%float) (Some 250%float) None)
    by (repeat split; vm_compute; reflexivity).
  split; [exact Hr|].
  exact (absent_price_ignores_settings Demo.env _ _ Demo.msft _ _ _ _ Demo.start Hr).
Defined.

(** X17: a record that gets past the two skips is resolved under its
    ticker exactly as the accessor returned it: the provider is asked for
    that string and no other, once or twice. *)
Theorem provider_sees_record_ticker {W : Type} (E : Env W) (c : config)
    (page pid : value) (ticker : str) (shares avg_cost existing : option float)
    (s : state W) :
  reads E page pid ticker shares avg_cost existing ->
  ticker <> [] ->
  UPDATE_ONLY_MISSING c = false \/ existing = None ->
  exists evs,
    trace (process_page E c page s).2 = trace s ++ evs
    /\ (fetches evs = [ticker] \/ fetches evs = [ticker; ticker]).
Proof.
  intros Hr Hne Hmode.
  assert (Hstrip : strip ticker = ticker).
  { destruct Hr as (_ & Ht & _). by apply get_prop_rich_text_stripped in Ht. }
  rewrite (process_page_fetch E c _ _ _ _ _ _ s Hr Hne Hmode).
  assert (Hne' : strip ticker <> []) by by rewrite Hstrip.
  assert (Hfetch : exists price w fevs,
             fetch_price E ticker s = (Ok price, after s w fevs id)
             /\ (fetches fevs = [ticker] \/ fetches fevs = [ticker; ticker])).
  { rewrite (fetch_price_cases E ticker s Hne'). simpl. rewrite Hstrip.
    destruct (fast_last_price E ticker (world s)) as [[[v|]|e] w];
      [destruct (to_float (float_of_str E) v)
      |destruct (history_last_close E ticker w) as [[[v|]|e] w'];
       [destruct (to_float (float_of_str E) v)| |]
      |];
      eexists _, _, _; (split; [reflexivity|]); simpl; auto. }
  destruct Hfetch as (price & w & fevs & -> & Hfe).
  destruct price as [price|].
  - rewrite write_back_cases. unfold after at 1. simpl.
    destruct (utcnow_isoformat E w) as [iso w0]. cbv zeta.
    destruct (pages_update E pid _ w0) as [[[]|e] w'];
      [destruct (get_prop_rich_text page PROP_TITLE)|];
      unfold after; simpl; rewrite <- app_assoc; eexists; (split; [reflexivity|]);
      rewrite fetches_app; simpl; by rewrite app_nil_r.
  - unfold after. simpl. rewrite <- app_assoc. eexists. split; [reflexivity|].
    rewrite fetches_app. simpl. by rewrite app_nil_r.
Qed.

(** X17 at the sample record with the unknown symbol: every lookup made
    is for "ZZZZ". *)
Lemma provider_sees_record_ticker_witness :
  reads Demo.env Demo.unknown (JStr (lit "p4")) (lit "ZZZZ")
    (Some 1%float) (Some 1%float) None
  /\ (fetches (trace (process_page Demo.env (Demo.settings 1 false)
                        Demo.unknown Demo.start).2) = [lit "ZZZZ"]
      \/ fetches (trace (process_page Demo.env (Demo.settings 1 false)
                           Demo.unknown Demo.start).2) = [lit "ZZZZ"; lit "ZZZZ"]).
Proof.
  assert (Hr : reads Demo.env Demo.unknown (JStr (lit "p4")) (lit "ZZZZ")
                 (Some 1%float) (Some 1%float) None)
    by (repeat split; vm_compute; reflexivity).
  split; [exact Hr|].
  destruct (provider_sees_record_ticker Demo.env (Demo.settings 1 false)
              Demo.unknown _ _ _ _ _ Demo.start Hr ltac:(discriminate)
              (or_introl eq_refl)) as (evs & Hevs & Hcalls).
  rewrite Hevs. exact Hcalls.
Defined.

(** *** Counters and printed lines *)

Section Lines.
Context {W : Type} (E : Env W) (c : config).

Lemma count_app (f : event -> bool) (a b : list event) :
  count f (a ++ b) = count f a + count f b.
Proof. induction a as [|e a IH]; simpl; [done|]. rewrite IH. lia. Qed.

(** A resolution prints neither a confirmation nor a failure line. *)
Lemma fetch_price_lines (ticker : str) (s : state W) :
  exists price w evs,
    fetch_price E ticker s = (Ok price, after s w evs id)
    /\ count is_ok_line evs = 0
    /\ count is_failure_line evs = 0.
Proof.
  destruct (decide (strip ticker = [])) as [Hb|Hb].
  - exists None, (world s), []. unfold fetch_price.
    rewrite bool_decide_eq_true_2 by done. unfold ret.
    by rewrite after_nothing.
  - rewrite (fetch_price_cases E ticker s Hb). simpl.
    destruct (fast_last_price E (strip ticker) (world s)) as [[[v|]|e] w];
      [destruct (to_float (float_of_str E) v)
      |destruct (history_last_close E (strip ticker) w) as [[[v|]|e] w'];
       [destruct (to_float (float_of_str E) v)| |]
      |];
      by eexists _, _, _.
Qed.

(** On a record each counter bump of the loop body comes with its line. *)
Lemma process_page_lines (page : value) (s : state W) :
  is_record page = true ->
  exists s' evs,
    process_page E c page s = (Ok tt, s')
    /\ trace s' = trace s ++ evs
    /\ updated (tally s') = updated (tally s) + count is_ok_line evs
    /\ failed (tally s') = failed (tally s) + count is_failure_line evs.
Proof.
  intros (pid & ticker & shares & avg_cost & existing & title & Hr & Htitle)%(record_reads E).
  destruct (decide (ticker = [])) as [->|Hne].
  { destruct Hr as (Hid & Ht & _).
    rewrite (process_page_no_ticker E c page pid s Hid Ht).
    eexists _, []. split; [reflexivity|]. unfold after. simpl.
    repeat split; lia. }
  destruct (UPDATE_ONLY_MISSING c) eqn:Hmode, existing as [x|];
    try (rewrite (process_page_has_price E c _ _ _ _ _ _ s Hr Hne Hmode);
         eexists _, []; (split; [reflexivity|]); unfold after; simpl;
         repeat split; lia).
  all: rewrite (process_page_fetch E c _ _ _ _ _ _ s Hr Hne) by auto.
  all: destruct (fetch_price_lines ticker s) as ([p|] & w & evs & -> & Hok & Hfail);
    [|eexists _, _; unfold after; simpl; rewrite <- app_assoc;
      (split; [reflexivity|]); (split; [reflexivity|]);
      rewrite !count_app, Hok, Hfail; simpl; lia].
  all: rewrite write_back_cases; rewrite Htitle.
  all: destruct (utcnow_isoformat E (world _)) as [iso w0]; cbv zeta.
  all: destruct (pages_update E pid _ w0) as [[[]|e] w'];
    eexists _, _; unfold after; simpl; rewrite <- app_assoc;
    (split; [reflexivity|]); (split; [reflexivity|]);
    rewrite !count_app, Hok, Hfail; simpl; lia.
Qed.

Lemma for_pages_lines (pages : list value) (s : state W) :
  Forall (fun page => is_record page = true) pages ->
  exists s' evs,
    for_pages E c pages s = (Ok tt, s')
    /\ trace s' = trace s ++ evs
    /\ updated (tally s') = updated (tally s) + count is_ok_line evs
    /\ failed (tally s') = failed (tally s) + count is_failure_line evs.
Proof.
  intros Hall. revert s.
  induction Hall as [|page pages Hrec _ IH]; intros s; simpl.
  - exists s, []. rewrite app_nil_r. simpl. repeat split; lia.
  - destruct (process_page_lines page s Hrec) as (s1 & evs1 & Hp & Ht1 & Hu1 & Hf1).
    destruct (IH s1) as (s' & evs & Hfor & Ht & Hu & Hf).
    exists s', (evs1 ++ evs). unfold io_bind. rewrite Hp.
    split; [exact Hfor|]. rewrite Ht, Ht1, app_assoc. split; [reflexivity|].
    rewrite !count_app. lia.
Qed.
End Lines.

(** X18: over records the counters of the summary agree with the lines
    printed on the way: updated is the number of confirmation lines, failed
    the number of price warnings and update-error lines. *)
Theorem counters_match_lines {W : Type} (E : Env W) (c : config)
    (pages : list value) (s : state W) :
  Forall (fun page => is_record page = true) pages ->
  exists s' evs,
    reconcile E c pages s = (Ok tt, s')
    /\ trace s' = trace s ++ evs
    /\ updated (tally s') = count is_ok_line evs
    /\ failed (tally s') = count is_failure_line evs.
Proof.
  intros Hall. unfold reconcile, io_bind, emit, modify_tally, get_tally. simpl.
  destruct (for_pages_lines E c pages
              {| world := world s;
                 trace := trace s ++ [Print (InfoPages (length pages))];
                 tally := {| updated := 0; skipped := 0; failed := 0 |} |} Hall)
    as (s' & evs & -> & Ht & Hu & Hf).
  simpl in *. eexists _, _. split; [reflexivity|]. simpl.
  rewrite Ht, <- !app_assoc. split; [reflexivity|].
  simpl. rewrite !count_app. simpl. lia.
Qed.

(** X18 at the four sample records: one confirmation line, two failure
    lines. *)
Lemma counters_match_lines_witness :
  Forall (fun page => is_record page = true)
    [Demo.apple; Demo.blank; Demo.msft; Demo.unknown]
  /\ exists s',
       reconcile Demo.env (Demo.settings 1 false)
         [Demo.apple; Demo.blank; Demo.msft; Demo.unknown] Demo.start = (Ok tt, s')
       /\ updated (tally s') = 1 /\ failed (tally s') = 2.
Proof.
  assert (Hall : Forall (fun page => is_record page = true)
                   [Demo.apple; Demo.blank; Demo.msft; Demo.unknown])
    by (repeat constructor; vm_compute; reflexivity).
  split; [exact Hall|].
  destruct (counters_match_lines Demo.env (Demo.settings 1 false) _ Demo.start Hall)
    as (s' & evs & Hrun & _).
  exists s'. split; [exact Hrun|].
  vm_compute in Hrun. injection Hrun as <-. split; reflexivity.
Defined.
